(** * Adminory: token lifecycle and revocation

    A shallow embedding of the authentication subsystem of the Adminory
    backend:

    - [app/utils/security.py]: [create_access_token],
      [create_refresh_token], [decode_token];
    - [app/services/auth.py]: the [AuthService] methods and their private
      refresh-token helpers;
    - [app/api/auth.py]: the [forgot_password] and [logout] endpoints;
    - [app/api/deps.py]: the request dependencies ([get_current_user] and
      the checks built on it, [require_role], [get_optional_user]);
    - [app/middleware/workspace.py]: the workspace context of a request.

    The collaborators the code calls but does not define (python-jose, the
    uuid module, passlib, the SQL session and the Redis client) are modelled
    by their contracts: the libraries as the fields of a type class, the
    relational store as a list of rows, and Redis as a finite map from keys
    to values with a deadline. The claim validation of [jwt.decode] is
    written out check by check, as python-jose runs it, since which
    exception a malformed claim raises decides what [decode_token] lets
    through.

    What the code reads from its environment is an argument of the
    operation that reads it: [now] is the clock in Unix seconds (the
    resolution in which python-jose writes [exp] and compares it), and the
    values drawn by [secrets.token_urlsafe] and by the password hasher are
    the [token] and [salt] arguments. *)

From Stdlib Require Import ZArith Lia Ascii String.
From stdpp Require Import base strings list gmap fin_maps pretty countable.

Local Open Scope Z_scope.
Local Open Scope string_scope.

(** ** Python values *)

(** The JSON values of the payloads considered: strings, integers and
    null, which is what this code signs and what an absent value is
    written as. *)
Inductive jval : Type :=
| JStr (s : string)
| JInt (z : Z)
| JNull.

(** A Python [dict] with string keys: insertion ordered, keys unique. *)
Definition dict : Type := list (string * jval).

(** [d.get(k)] *)
Fixpoint dict_get (k : string) (d : dict) : option jval :=
  match d with
  | [] => None
  | (k', v) :: rest => if String.eqb k k' then Some v else dict_get k rest
  end.

(** [d[k] = v]: an existing key keeps its position, a new key goes last. *)
Fixpoint dict_set (k : string) (v : jval) (d : dict) : dict :=
  match d with
  | [] => [(k, v)]
  | (k', v') :: rest =>
      if String.eqb k k' then (k, v) :: rest else (k', v') :: dict_set k v rest
  end.

(** [d.update(other)] *)
Definition dict_update (d other : dict) : dict :=
  fold_left (fun acc kv => dict_set (fst kv) (snd kv) acc) other d.

(** Truthiness of an optional payload value, as in [if not user_id]. *)
Definition py_truthy (v : option jval) : bool :=
  match v with
  | Some (JStr s) => negb (String.eqb s "")
  | Some (JInt z) => negb (Z.eqb z 0)
  | Some JNull | None => false
  end.

(** Formatting inside an f-string. *)
Definition py_format (v : jval) : string :=
  match v with
  | JStr s => s
  | JInt z => pretty z
  | JNull => "None"
  end.

(** [payload.get(k) != s] *)
Definition py_ne_str (v : option jval) (s : string) : bool :=
  match v with
  | Some (JStr s') => negb (String.eqb s' s)
  | _ => true
  end.

(** ** Exceptions *)

Inductive jwt_error : Type :=
| BadSignature            (* JWTError proper: malformed token, bad signature *)
| ExpiredSignatureError
| JWTClaimsError.

(** [ScanBudgetExceeded] is not a Python exception: it is what the bounded
    rendering of the [while True] loop of [_revoke_all_refresh_tokens]
    yields if the bound is reached ([scan_and_delete_spec] shows that it is
    not). *)
Inductive exn : Type :=
| HTTPException (status_code : Z) (detail : string)
| JWTError (kind : jwt_error)
| ValueError
| TypeError
| AttributeError
| MultipleResultsFound
| ScanBudgetExceeded.

Inductive outcome (A : Type) : Type :=
| Return (a : A)
| Raise (e : exn).
Arguments Return {A} a.
Arguments Raise {A} e.

Definition HTTP_400_BAD_REQUEST : Z := 400.
Definition HTTP_401_UNAUTHORIZED : Z := 401.
Definition HTTP_403_FORBIDDEN : Z := 403.
Definition HTTP_404_NOT_FOUND : Z := 404.

(** ** Redis *)

(** *** Glob patterns of [SCAN ... MATCH]

    The matcher follows Redis' [stringmatchlen]: [*] matches any run of
    characters, [?] one character, [[...]] a character class (negated by a
    leading [^], with [a-z] ranges), and a backslash quotes the next
    character. *)

Definition is_glob_meta (c : ascii) : bool :=
  Ascii.eqb c "*" || Ascii.eqb c "?" || Ascii.eqb c "[" || Ascii.eqb c "\".

Fixpoint glob_plain (s : string) : bool :=
  match s with
  | EmptyString => true
  | String c s' => negb (is_glob_meta c) && glob_plain s'
  end.

(** Strings without a colon, the separator of the Redis keys. *)
Fixpoint colon_free (s : string) : bool :=
  match s with
  | EmptyString => true
  | String c s' => negb (Ascii.eqb c ":") && colon_free s'
  end.

Definition in_range (lo hi c : ascii) : bool :=
  let l := N.min (N_of_ascii lo) (N_of_ascii hi) in
  let h := N.max (N_of_ascii lo) (N_of_ascii hi) in
  (N.leb l (N_of_ascii c) && N.leb (N_of_ascii c) h)%N.

(** The body of a character class, after [[] and the optional [^]: returns
    whether [c] is in the class and the pattern that follows the class. *)
Fixpoint glob_class (p : string) (c : ascii) (hit : bool) : bool * string :=
  match p with
  | EmptyString => (hit, EmptyString)
  | String x rest =>
      if Ascii.eqb x "]" then (hit, rest)
      else
        match rest with
        | String y rest' =>
            if Ascii.eqb x "\" then glob_class rest' c (hit || Ascii.eqb y c)
            else
              match rest' with
              | String z rest'' =>
                  if Ascii.eqb y "-"
                  then glob_class rest'' c (hit || in_range x z c)
                  else glob_class rest c (hit || Ascii.eqb x c)
              | EmptyString => glob_class rest c (hit || Ascii.eqb x c)
              end
        | EmptyString => glob_class rest c (hit || Ascii.eqb x c)
        end
  end.

Fixpoint glob_fuel (n : nat) (p s : string) : bool :=
  match n with
  | O => false
  | S n' =>
      match p with
      | EmptyString => match s with EmptyString => true | _ => false end
      | String x p' =>
          if Ascii.eqb x "*" then
            (fix star (s0 : string) : bool :=
               glob_fuel n' p' s0
               || match s0 with
                  | EmptyString => false
                  | String _ s1 => star s1
                  end) s
          else
            match s with
            | EmptyString => false
            | String c s' =>
                if Ascii.eqb x "?" then glob_fuel n' p' s'
                else if Ascii.eqb x "[" then
                  let negated :=
                    match p' with
                    | String y _ => Ascii.eqb y "^"
                    | EmptyString => false
                    end in
                  let body :=
                    match p' with
                    | String y q => if Ascii.eqb y "^" then q else p'
                    | EmptyString => p'
                    end in
                  let '(hit, rest) := glob_class body c false in
                  if xorb negated hit then glob_fuel n' rest s' else false
                else if Ascii.eqb x "\" then
                  match p' with
                  | String y p'' => Ascii.eqb y c && glob_fuel n' p'' s'
                  | EmptyString => Ascii.eqb x c && glob_fuel n' p' s'
                  end
                else Ascii.eqb x c && glob_fuel n' p' s'
            end
      end
  end.

(** Every step consumes a pattern character, so the length of the pattern
    bounds the recursion. *)
Definition glob_match (p s : string) : bool :=
  glob_fuel (S (String.length p)) p s.

(** *** The keyspace *)

(** A stored value with the absolute time (Unix seconds) of its expiry.
    Redis treats a key as expired once the clock has passed that time
    ([now > when] in [keyIsExpired]), so the key is still served when the
    clock reads exactly its deadline. *)
Record entry : Type := { value : string; deadline : Z }.

Abbreviation store := (gmap string entry).

Definition live (now : Z) (e : entry) : bool := Z.leb now (deadline e).

(** The hash table behind the keyspace, which [SCAN] walks one bucket per
    call: [S table_mask] buckets, and the bucket of a key. *)
Class Keyspace : Type := {
  table_mask : nat;
  bucket_hash : string -> nat
}.

Definition bucket `{Keyspace} (k : string) : nat :=
  (bucket_hash k mod S table_mask)%nat.

(** [GET key] *)
Definition store_get (now : Z) (k : string) (r : store) : option string :=
  match r !! k with
  | Some e => if live now e then Some (value e) else None
  | None => None
  end.

(** [EXISTS key] *)
Definition store_exists (now : Z) (k : string) (r : store) : bool :=
  match store_get now k r with Some _ => true | None => false end.

(** [SETEX key seconds value] *)
Definition store_setex (now : Z) (k : string) (ttl : Z) (v : string)
    (r : store) : store :=
  <[k := {| value := v; deadline := now + ttl |}]> r.

(** [DEL key ...] *)
Definition store_delete (ks : list string) (r : store) : store :=
  foldr delete r ks.

(** A key is dead from [now] on when it is absent or has expired. *)
Definition dead (now : Z) (k : string) (r : store) : Prop :=
  match r !! k with
  | None => True
  | Some e => deadline e < now
  end.

(** [SCAN cursor MATCH pattern]: the live keys of bucket [cursor] that match,
    and the next cursor, [0] once the table has been walked. *)
Definition store_scan `{Keyspace} (now : Z) (cursor : nat) (pattern : string)
    (r : store) : nat * list string :=
  let keys :=
    List.filter
      (fun k => Nat.eqb (bucket k) cursor && glob_match pattern k
                && store_exists now k r)
      (fmap fst (map_to_list r)) in
  ((if Nat.ltb (S cursor) (S table_mask) then S cursor else O), keys).

(** ** Configuration ([app/config.py]) *)

Class Settings : Type := {
  JWT_SECRET : string;
  JWT_REFRESH_SECRET : string;
  JWT_ALGORITHM : string;
  ACCESS_TOKEN_EXPIRE_MINUTES : Z;
  REFRESH_TOKEN_EXPIRE_DAYS : Z
}.

(** ** The libraries the code calls

    - [uuid_str u] is [str(u)] and [UUID s] is the constructor [uuid.UUID(s)],
      [None] standing for its [ValueError];
    - [pwd_hash] and [pwd_verify] are passlib's [pwd_context.hash] (the salt
      it draws is an argument) and [pwd_context.verify];
    - [jws_sign claims key alg] is the compact token python-jose builds,
      [jws_payload] the claims a token carries and [jws_check token key algs]
      whether its signature verifies under [key] with an allowed
      algorithm;
    - [int_of_str s] is the builtin [int(s)] on a string, [None] standing
      for its [ValueError]. *)
Class Libraries : Type := {
  uuid : Type;
  uuid_eq_dec :: EqDecision uuid;
  uuid_str : uuid -> string;
  UUID : string -> option uuid;
  pwd_hash : string -> string -> string;
  pwd_verify : string -> string -> bool;
  jws_sign : dict -> string -> string -> string;
  jws_payload : string -> option dict;
  jws_check : string -> string -> list string -> bool;
  int_of_str : string -> option Z
}.

(** What the proofs use of these libraries. *)
Class UuidLaws `{Libraries} : Prop := {
  UUID_str : forall u, UUID (uuid_str u) = Some u;
  uuid_str_nonempty : forall u, uuid_str u <> "";
  uuid_str_plain : forall u, glob_plain (uuid_str u) = true
}.

Class JoseLaws `{Libraries} `{Settings} : Prop := {
  jws_payload_sign : forall claims key,
    NoDup (fmap fst claims) ->
    jws_payload (jws_sign claims key JWT_ALGORITHM) = Some claims;
  jws_check_sign : forall claims key,
    jws_check (jws_sign claims key JWT_ALGORITHM) key [JWT_ALGORITHM] = true
}.

(** ** The user model ([app/models/user.py]) *)

Inductive UserRole : Type := SUPER_ADMIN | ADMIN | USER.

Definition UserRole_value (r : UserRole) : string :=
  match r with
  | SUPER_ADMIN => "super_admin"
  | ADMIN => "admin"
  | USER => "user"
  end.

Module User.

Record row (uuid : Type) : Type := mk {
  id : uuid;
  email : string;
  password_hash : option string;      (* nullable for SSO-only users *)
  name : string;
  role : UserRole;
  is_active : bool;
  email_verified_at : option Z;
  last_login_at : option Z
}.
Arguments mk {uuid}.
Arguments id {uuid}.
Arguments email {uuid}.
Arguments password_hash {uuid}.
Arguments name {uuid}.
Arguments role {uuid}.
Arguments is_active {uuid}.
Arguments email_verified_at {uuid}.
Arguments last_login_at {uuid}.

(** The rows of the [users] table, with the ids of the uuid library. *)
Abbreviation t := (row uuid).

End User.

(** ** Request schemas ([app/schemas/auth.py]) *)

Record LoginRequest : Type := {
  login_email : string;
  login_password : string
}.

Record RegisterRequest : Type := {
  register_email : string;
  register_password : string;
  register_name : string
}.

(** ** The state the requests share, and the monad of a request *)

(** [history] lists the successive contents of the Redis keyspace, the most
    recent first: every writing command records the keyspace it leaves. *)
Record state (uuid : Type) : Type := {
  db : list (User.row uuid);
  redis : store;
  history : list store
}.
Arguments Build_state {uuid}.
Arguments db {uuid}.
Arguments redis {uuid}.
Arguments history {uuid}.

Abbreviation world := (state uuid).

Section Embedding.
Context `{lib : Libraries} `{cfg : Settings} `{kspace : Keyspace}.

Definition M (A : Type) : Type := world -> outcome A * world.

Definition ret {A} (a : A) : M A := fun w => (Return a, w).

Definition raise {A} (e : exn) : M A := fun w => (Raise e, w).

Definition bind {A B} (m : M A) (k : A -> M B) : M B :=
  fun w =>
    match m w with
    | (Return a, w') => k a w'
    | (Raise e, w') => (Raise e, w')
    end.

Definition lift {A} (o : outcome A) : M A := fun w => (o, w).

Notation "'let*' x ':=' c 'in' k" := (bind c (fun x => k))
  (at level 10, x name, c at level 100, k at level 200).
Notation "'let*' ' p ':=' c 'in' k" :=
  (bind c (fun x => match x with p => k end))
  (at level 10, p pattern, c at level 100, k at level 200).

(** *** The SQL session *)

(** [await self.db.execute(select(User).where(...))] *)
Definition select_where (cond : User.t -> bool) : M (list User.t) :=
  fun w => (Return (List.filter cond (db w)), w).

(** [result.scalar_one_or_none()] *)
Definition scalar_one_or_none (rows : list User.t) : M (option User.t) :=
  match rows with
  | [] => ret None
  | [u] => ret (Some u)
  | _ => raise MultipleResultsFound
  end.

Definition same_id (u v : User.t) : bool :=
  bool_decide (User.id u = User.id v).

(** Attribute assignments on a loaded row. *)

(** [user.last_login_at = datetime.utcnow()] *)
Definition set_last_login_at (user : User.t) (now : Z) : User.t :=
  User.mk (User.id user) (User.email user) (User.password_hash user)
    (User.name user) (User.role user) (User.is_active user)
    (User.email_verified_at user) (Some now).

(** [user.email_verified_at = datetime.utcnow()] *)
Definition set_email_verified_at (user : User.t) (now : Z) : User.t :=
  User.mk (User.id user) (User.email user) (User.password_hash user)
    (User.name user) (User.role user) (User.is_active user) (Some now)
    (User.last_login_at user).

(** [user.password_hash = h] *)
Definition set_password_hash (user : User.t) (h : string) : User.t :=
  User.mk (User.id user) (User.email user) (Some h) (User.name user)
    (User.role user) (User.is_active user) (User.email_verified_at user)
    (User.last_login_at user).

Definition update_row (u : User.t) (rows : list User.t) : list User.t :=
  (fun row => if same_id row u then u else row) <$> rows.

(** [await self.db.commit()] after the attributes of [u] were assigned: the
    row with the primary key of [u] becomes [u]. *)
Definition write_db (rows : list User.t) (w : world) : world :=
  {| db := rows; redis := redis w; history := history w |}.

Definition commit (u : User.t) : M unit :=
  fun w => (Return tt, write_db (update_row u (db w)) w).

(** *** The Redis client *)

Definition write_redis (r : store) (w : world) : world :=
  {| db := db w; redis := r; history := r :: history w |}.

(** The keyspaces a request went through strictly between the state [w] it
    started from and the state [w'] it ended in. *)
Definition intermediate_states (w w' : world) : list store :=
  tail (take (length (history w') - length (history w)) (history w')).

Definition redis_get (now : Z) (k : string) : M (option string) :=
  fun w => (Return (store_get now k (redis w)), w).

Definition redis_exists (now : Z) (k : string) : M bool :=
  fun w => (Return (store_exists now k (redis w)), w).

Definition redis_setex (now : Z) (k : string) (ttl : Z) (v : string) : M unit :=
  fun w => (Return tt, write_redis (store_setex now k ttl v (redis w)) w).

Definition redis_delete (ks : list string) : M unit :=
  fun w => (Return tt, write_redis (store_delete ks (redis w)) w).

Definition redis_scan (now : Z) (cursor : nat) (pattern : string)
    (count : Z) : M (nat * list string) :=
  fun w => (Return (store_scan now cursor pattern (redis w)), w).

(** ** [app/utils/security.py] *)

(** [jwt.encode]: times are Unix seconds, as python-jose writes them. *)
Definition jwt_encode (claims : dict) (key algorithm : string) : string :=
  jws_sign claims key algorithm.

(** *** python-jose's claim validation ([jose/jwt.py])

    [jwt.decode] is called without [audience], [issuer], [subject],
    [access_token] and [options], so every check is on and the leeway is
    zero. *)

(** [int(v)] on a claim value: a [TypeError] for [None], a [ValueError]
    for a string that is no numeral. *)
Definition py_int (v : jval) : outcome Z :=
  match v with
  | JInt z => Return z
  | JStr s =>
      match int_of_str s with
      | Some z => Return z
      | None => Raise ValueError
      end
  | JNull => Raise TypeError
  end.

(** [try: int(claims[k]) except ValueError: raise JWTClaimsError(...)];
    what is not a [ValueError] goes through. *)
Definition int_claim (v : jval) : outcome Z :=
  match py_int v with
  | Raise ValueError => Raise (JWTError JWTClaimsError)
  | other => other
  end.

Definition and_then {A B} (r : outcome A) (k : A -> outcome B) : outcome B :=
  match r with
  | Return a => k a
  | Raise e => Raise e
  end.

Definition _validate_iat (claims : dict) : outcome unit :=
  match dict_get "iat" claims with
  | None => Return tt
  | Some v => and_then (int_claim v) (fun _ => Return tt)
  end.

Definition _validate_nbf (claims : dict) (now : Z) : outcome unit :=
  match dict_get "nbf" claims with
  | None => Return tt
  | Some v =>
      and_then (int_claim v) (fun nbf =>
        if Z.ltb now nbf then Raise (JWTError JWTClaimsError)
        else Return tt)
  end.

Definition _validate_exp (claims : dict) (now : Z) : outcome unit :=
  match dict_get "exp" claims with
  | None => Return tt
  | Some v =>
      and_then (int_claim v) (fun exp =>
        if Z.ltb exp now then Raise (JWTError ExpiredSignatureError)
        else Return tt)
  end.

(** With [audience=None], [audience not in audience_claim] holds for every
    well-formed claim, and an ill-formed one is refused before it. *)
Definition _validate_aud (claims : dict) : outcome unit :=
  match dict_get "aud" claims with
  | None => Return tt
  | Some _ => Raise (JWTError JWTClaimsError)
  end.

Definition _validate_sub (claims : dict) : outcome unit :=
  match dict_get "sub" claims with
  | None | Some (JStr _) => Return tt
  | Some _ => Raise (JWTError JWTClaimsError)
  end.

Definition _validate_jti (claims : dict) : outcome unit :=
  match dict_get "jti" claims with
  | None | Some (JStr _) => Return tt
  | Some _ => Raise (JWTError JWTClaimsError)
  end.

(** Without an [access_token] an [at_hash] claim cannot be checked. *)
Definition _validate_at_hash (claims : dict) : outcome unit :=
  match dict_get "at_hash" claims with
  | None => Return tt
  | Some _ => Raise (JWTError JWTClaimsError)
  end.

(** The checks in the order [_validate_claims] runs them; [_validate_iss]
    does nothing when no issuer is asked for. *)
Definition _validate_claims (claims : dict) (now : Z) : outcome unit :=
  and_then (_validate_iat claims) (fun _ =>
  and_then (_validate_nbf claims now) (fun _ =>
  and_then (_validate_exp claims now) (fun _ =>
  and_then (_validate_aud claims) (fun _ =>
  and_then (_validate_sub claims) (fun _ =>
  and_then (_validate_jti claims) (fun _ =>
  _validate_at_hash claims)))))).

(** [jwt.decode]: the signature and the algorithm are checked first
    ([jws.verify], whose [JWSError] becomes a [JWTError]), then the claims
    are read and validated. *)
Definition jwt_decode (token key : string) (algorithms : list string)
    (now : Z) : outcome dict :=
  if jws_check token key algorithms then
    match jws_payload token with
    | None => Raise (JWTError BadSignature)
    | Some claims =>
        and_then (_validate_claims claims now) (fun _ => Return claims)
    end
  else Raise (JWTError BadSignature).

(** Claims without [iat], [nbf], [aud], [jti] and [at_hash], whose subject
    is absent or a string and whose expiry is a number, as the tokens of
    this code have them: only the expiry decides. *)
Definition issued_form (claims : dict) : Prop :=
  dict_get "iat" claims = None /\
  dict_get "nbf" claims = None /\
  dict_get "aud" claims = None /\
  dict_get "jti" claims = None /\
  dict_get "at_hash" claims = None /\
  (dict_get "sub" claims = None \/
   exists s, dict_get "sub" claims = Some (JStr s)).

Definition hash_password (password salt : string) : string :=
  pwd_hash password salt.

Definition verify_password (plain_password hashed_password : string) : bool :=
  pwd_verify plain_password hashed_password.

(** [expires_delta] is in seconds; a zero [timedelta] is falsy. *)
Definition create_access_token (data : dict) (expires_delta : option Z)
    (now : Z) : string :=
  let to_encode := data in
  let expire :=
    match expires_delta with
    | Some delta =>
        if Z.eqb delta 0 then now + ACCESS_TOKEN_EXPIRE_MINUTES * 60
        else now + delta
    | None => now + ACCESS_TOKEN_EXPIRE_MINUTES * 60
    end in
  let to_encode :=
    dict_update to_encode [("exp", JInt expire); ("type", JStr "access")] in
  jwt_encode to_encode JWT_SECRET JWT_ALGORITHM.

Definition create_refresh_token (data : dict) (now : Z) : string :=
  let to_encode := data in
  let expire := now + REFRESH_TOKEN_EXPIRE_DAYS * 86400 in
  let to_encode :=
    dict_update to_encode [("exp", JInt expire); ("type", JStr "refresh")] in
  jwt_encode to_encode JWT_REFRESH_SECRET JWT_ALGORITHM.

Definition decode_token (token token_type : string) (now : Z)
    : outcome (option dict) :=
  let attempt :=
    let secret :=
      if String.eqb token_type "access" then JWT_SECRET
      else JWT_REFRESH_SECRET in
    match jwt_decode token secret [JWT_ALGORITHM] now with
    | Raise e => Raise e
    | Return payload =>
        if py_ne_str (dict_get "type" payload) token_type then Return None
        else Return (Some payload)
    end in
  match attempt with
  | Raise (JWTError _) => Return None
  | other => other
  end.

(** ** [app/services/auth.py]: [AuthService] *)

Definition refresh_key (user_id refresh_token : string) : string :=
  "refresh_token:" +:+ user_id +:+ ":" +:+ refresh_token.

Definition _store_refresh_token (now : Z) (user_id refresh_token : string)
    : M unit :=
  (* Store for 7 days (same as refresh token expiration) *)
  redis_setex now (refresh_key user_id refresh_token) (7 * 24 * 3600) "1".

Definition _check_refresh_token (now : Z) (user_id refresh_token : string)
    : M bool :=
  redis_exists now (refresh_key user_id refresh_token).

Definition _revoke_refresh_token (user_id refresh_token : string) : M unit :=
  redis_delete [refresh_key user_id refresh_token].

(** The [while True] loop of [_revoke_all_refresh_tokens]: [budget] bounds
    the number of iterations. *)
Fixpoint scan_and_delete (budget : nat) (now : Z) (pattern : string)
    (cursor : nat) : M unit :=
  match budget with
  | O => raise ScanBudgetExceeded
  | S budget' =>
      let* '(cursor', keys) := redis_scan now cursor pattern 100 in
      let* _ := match keys with
                | [] => ret tt
                | _ => redis_delete keys
                end in
      if Nat.eqb cursor' 0 then ret tt
      else scan_and_delete budget' now pattern cursor'
  end.

Definition _revoke_all_refresh_tokens (now : Z) (user_id : string) : M unit :=
  let pattern := "refresh_token:" +:+ user_id +:+ ":*" in
  scan_and_delete (S table_mask) now pattern 0.

Definition token_data_of (user : User.t) : dict :=
  [("sub", JStr (uuid_str (User.id user)));
   ("email", JStr (User.email user));
   ("role", JStr (UserRole_value (User.role user)))].

(** [not user.password_hash or not verify_password(password, hash)] *)
Definition password_rejected (user : User.t) (password : string) : bool :=
  match User.password_hash user with
  | None => true
  | Some h =>
      if String.eqb h "" then true else negb (verify_password password h)
  end.

Definition authenticate_user (now : Z) (data : LoginRequest)
    : M (User.t * string * string) :=
  let* rows :=
    select_where (fun u => String.eqb (User.email u) (login_email data)) in
  let* user := scalar_one_or_none rows in
  match user with
  | None =>
      raise (HTTPException HTTP_401_UNAUTHORIZED "Incorrect email or password")
  | Some user =>
      if password_rejected user (login_password data) then
        raise (HTTPException HTTP_401_UNAUTHORIZED
                 "Incorrect email or password")
      else if negb (User.is_active user) then
        raise (HTTPException HTTP_403_FORBIDDEN "User account is inactive")
      else
        let user := set_last_login_at user now in
        let* _ := commit user in
        let token_data := token_data_of user in
        let access_token := create_access_token token_data None now in
        let refresh_token := create_refresh_token token_data now in
        let* _ :=
          _store_refresh_token now (uuid_str (User.id user)) refresh_token in
        ret (user, access_token, refresh_token)
  end.

(** [UUID(user_id)] for a payload value: only a string has [replace]. *)
Definition UUID_of (v : jval) : M uuid :=
  match v with
  | JStr s => match UUID s with Some u => ret u | None => raise ValueError end
  | _ => raise AttributeError
  end.

Definition refresh_access_token (now : Z) (refresh_token : string)
    : M (string * string) :=
  let* payload := lift (decode_token refresh_token "refresh" now) in
  match payload with
  | None | Some [] =>
      raise (HTTPException HTTP_401_UNAUTHORIZED "Invalid refresh token")
  | Some payload =>
      match dict_get "sub" payload with
      | None =>
          raise (HTTPException HTTP_401_UNAUTHORIZED "Invalid token payload")
      | Some sub =>
          if negb (py_truthy (Some sub)) then
            raise (HTTPException HTTP_401_UNAUTHORIZED "Invalid token payload")
          else
            let user_id := py_format sub in
            let* is_valid := _check_refresh_token now user_id refresh_token in
            if negb is_valid then
              raise (HTTPException HTTP_401_UNAUTHORIZED
                       "Refresh token has been revoked")
            else
              let* uid := UUID_of sub in
              let* rows :=
                select_where (fun u => bool_decide (User.id u = uid)) in
              let* user := scalar_one_or_none rows in
              match user with
              | None =>
                  raise (HTTPException HTTP_401_UNAUTHORIZED
                           "User not found or inactive")
              | Some user =>
                  if negb (User.is_active user) then
                    raise (HTTPException HTTP_401_UNAUTHORIZED
                             "User not found or inactive")
                  else
                    let token_data := token_data_of user in
                    let new_access_token :=
                      create_access_token token_data None now in
                    let new_refresh_token :=
                      create_refresh_token token_data now in
                    (* Revoke old refresh token and store new one *)
                    let* _ := _revoke_refresh_token user_id refresh_token in
                    let* _ :=
                      _store_refresh_token now user_id new_refresh_token in
                    ret (new_access_token, new_refresh_token)
              end
      end
  end.

Definition logout_user (user_id refresh_token : string) : M unit :=
  _revoke_refresh_token user_id refresh_token.

(** [UUID(user_id)] for a value read from Redis. *)
Definition UUID_or_raise (s : string) : M uuid :=
  match UUID s with Some u => ret u | None => raise ValueError end.

Definition verify_email (now : Z) (token : string) : M User.t :=
  let* user_id := redis_get now ("email_verification:" +:+ token) in
  match user_id with
  | None =>
      raise (HTTPException HTTP_400_BAD_REQUEST
               "Invalid or expired verification token")
  | Some user_id =>
      if String.eqb user_id "" then
        raise (HTTPException HTTP_400_BAD_REQUEST
                 "Invalid or expired verification token")
      else
        let* uid := UUID_or_raise user_id in
        let* rows := select_where (fun u => bool_decide (User.id u = uid)) in
        let* user := scalar_one_or_none rows in
        match user with
        | None => raise (HTTPException HTTP_404_NOT_FOUND "User not found")
        | Some user =>
            let user := set_email_verified_at user now in
            let* _ := commit user in
            let* _ := redis_delete ["email_verification:" +:+ token] in
            ret user
        end
  end.

(** [reset_token] is the value [secrets.token_urlsafe(32)] draws. *)
Definition create_password_reset_token (now : Z) (email reset_token : string)
    : M string :=
  let* rows := select_where (fun u => String.eqb (User.email u) email) in
  let* user := scalar_one_or_none rows in
  match user with
  | None =>
      (* Don't reveal that user doesn't exist (security) *)
      ret ""
  | Some user =>
      let* _ :=
        redis_setex now ("password_reset:" +:+ reset_token) 3600
          (uuid_str (User.id user)) in
      ret reset_token
  end.

Definition reset_password (now : Z) (token new_password salt : string)
    : M User.t :=
  let* user_id := redis_get now ("password_reset:" +:+ token) in
  match user_id with
  | None =>
      raise (HTTPException HTTP_400_BAD_REQUEST
               "Invalid or expired reset token")
  | Some user_id =>
      if String.eqb user_id "" then
        raise (HTTPException HTTP_400_BAD_REQUEST
                 "Invalid or expired reset token")
      else
        let* uid := UUID_or_raise user_id in
        let* rows := select_where (fun u => bool_decide (User.id u = uid)) in
        let* user := scalar_one_or_none rows in
        match user with
        | None => raise (HTTPException HTTP_404_NOT_FOUND "User not found")
        | Some user =>
            let user := set_password_hash user (hash_password new_password salt) in
            let* _ := commit user in
            let* _ := redis_delete ["password_reset:" +:+ token] in
            (* Revoke all refresh tokens for security *)
            let* _ :=
              _revoke_all_refresh_tokens now (uuid_str (User.id user)) in
            ret user
        end
  end.

Definition change_password (user_id : uuid)
    (current_password new_password salt : string) : M User.t :=
  let* rows := select_where (fun u => bool_decide (User.id u = user_id)) in
  let* user := scalar_one_or_none rows in
  match user with
  | None => raise (HTTPException HTTP_404_NOT_FOUND "User not found")
  | Some user =>
      if password_rejected user current_password then
        raise (HTTPException HTTP_400_BAD_REQUEST
                 "Current password is incorrect")
      else
        let user := set_password_hash user (hash_password new_password salt) in
        let* _ := commit user in
        ret user
  end.

(** [token] is the value [secrets.token_urlsafe(32)] draws. *)
Definition create_verification_token (now : Z) (user_id : uuid)
    (token : string) : M string :=
  let* _ :=
    redis_setex now ("email_verification:" +:+ token) 86400
      (uuid_str user_id) in
  ret token.

(** ** [app/api/auth.py] *)

Definition generic_reset_response : dict :=
  [("message",
    JStr "If the email exists, a password reset link has been sent.")].

Definition forgot_password (now : Z) (email reset_token : string) : M dict :=
  let* _ := create_password_reset_token now email reset_token in
  (* Always return success (don't reveal if email exists) *)
  ret generic_reset_response.

(** ** More of [app/services/auth.py] *)

(** [self.db.add(user)] and [await self.db.commit()] for a new row. *)
Definition add_user (u : User.t) : M unit :=
  fun w => (Return tt, write_db (db w ++ [u]) w).

(** [new_id] is the primary key [uuid.uuid4] draws for the row and [salt]
    the salt the hasher draws. *)
Definition register_user (data : RegisterRequest) (new_id : uuid)
    (salt : string) : M User.t :=
  let* rows :=
    select_where (fun u => String.eqb (User.email u) (register_email data)) in
  let* existing_user := scalar_one_or_none rows in
  match existing_user with
  | Some _ =>
      raise (HTTPException HTTP_400_BAD_REQUEST "Email already registered")
  | None =>
      let user :=
        User.mk new_id (register_email data)
          (Some (hash_password (register_password data) salt))
          (register_name data) USER true None None in
      let* _ := add_user user in
      ret user
  end.

(** ** [app/api/deps.py]

    The [headers] of the 401 responses are not part of [HTTPException]
    here. The bearer token is the string [HTTPBearer] extracted from the
    [Authorization] header. *)

Definition get_current_user (now : Z) (token : string) : M User.t :=
  let* payload := lift (decode_token token "access" now) in
  match payload with
  | None | Some [] =>
      raise (HTTPException HTTP_401_UNAUTHORIZED
               "Could not validate credentials")
  | Some payload =>
      match dict_get "sub" payload with
      | None =>
          raise (HTTPException HTTP_401_UNAUTHORIZED "Invalid token payload")
      | Some sub =>
          if negb (py_truthy (Some sub)) then
            raise (HTTPException HTTP_401_UNAUTHORIZED "Invalid token payload")
          else
            let* uid := UUID_of sub in
            let* rows :=
              select_where (fun u => bool_decide (User.id u = uid)) in
            let* user := scalar_one_or_none rows in
            match user with
            | None =>
                raise (HTTPException HTTP_401_UNAUTHORIZED "User not found")
            | Some user =>
                if negb (User.is_active user) then
                  raise (HTTPException HTTP_403_FORBIDDEN
                           "User account is inactive")
                else ret user
            end
      end
  end.

Definition get_current_active_user (current_user : User.t) : M User.t :=
  if negb (User.is_active current_user) then
    raise (HTTPException HTTP_403_FORBIDDEN "User account is inactive")
  else ret current_user.

(** [email_verified_at] is a [datetime] or [None]; a [datetime] is truthy. *)
Definition get_current_verified_user (current_user : User.t) : M User.t :=
  match User.email_verified_at current_user with
  | None => raise (HTTPException HTTP_403_FORBIDDEN "Email not verified")
  | Some _ => ret current_user
  end.

Definition UserRole_eqb (a b : UserRole) : bool :=
  match a, b with
  | SUPER_ADMIN, SUPER_ADMIN | ADMIN, ADMIN | USER, USER => true
  | _, _ => false
  end.

(** Role hierarchy: super_admin > admin > user *)
Definition role_hierarchy : list (UserRole * Z) :=
  [(SUPER_ADMIN, 3); (ADMIN, 2); (USER, 1)].

(** [role_hierarchy.get(role, 0)] *)
Definition role_level (r : UserRole) : Z :=
  match List.find (fun kv => UserRole_eqb (fst kv) r) role_hierarchy with
  | Some kv => snd kv
  | None => 0
  end.

(** The [role_checker] that [require_role(required_role)] returns. *)
Definition require_role (required_role : UserRole) (current_user : User.t)
    : M User.t :=
  let user_level := role_level (User.role current_user) in
  let required_level := role_level required_role in
  if Z.ltb user_level required_level then
    raise (HTTPException HTTP_403_FORBIDDEN
             ("Insufficient permissions. Required role: "
              +:+ UserRole_value required_role))
  else ret current_user.

(** [Depends(get_current_active_user)]: the chain FastAPI resolves. *)
Definition depends_current_active_user (now : Z) (token : string)
    : M User.t :=
  let* current_user := get_current_user now token in
  get_current_active_user current_user.

Definition depends_current_verified_user (now : Z) (token : string)
    : M User.t :=
  let* current_user := depends_current_active_user now token in
  get_current_verified_user current_user.

Definition require_admin (now : Z) (token : string) : M User.t :=
  let* current_user := depends_current_active_user now token in
  require_role ADMIN current_user.

Definition require_super_admin (now : Z) (token : string) : M User.t :=
  let* current_user := depends_current_active_user now token in
  require_role SUPER_ADMIN current_user.

(** [try: body except Exception: handler] *)
Definition try_except {A} (body : M A) (handler : M A) : M A :=
  fun w =>
    match body w with
    | (Raise _, w') => handler w'
    | result => result
    end.

(** [credentials] is [None] when the request has no bearer token. *)
Definition get_optional_user (now : Z) (credentials : option string)
    : M (option User.t) :=
  match credentials with
  | None => ret None
  | Some token =>
      try_except
        (let* payload := lift (decode_token token "access" now) in
         match payload with
         | None | Some [] => ret None
         | Some payload =>
             match dict_get "sub" payload with
             | None => ret None
             | Some sub =>
                 if negb (py_truthy (Some sub)) then ret None
                 else
                   let* uid := UUID_of sub in
                   let* rows :=
                     select_where (fun u => bool_decide (User.id u = uid)) in
                   let* user := scalar_one_or_none rows in
                   match user with
                   | Some user =>
                       if User.is_active user then ret (Some user)
                       else ret None
                   | None => ret None
                   end
             end
         end)
        (ret None)
  end.

(** ** More of [app/api/auth.py] *)

(** The [/logout] endpoint: [token] is the caller's bearer token. *)
Definition logout (now : Z) (token refresh_token : string) : M dict :=
  let* current_user := depends_current_active_user now token in
  let* _ := logout_user (uuid_str (User.id current_user)) refresh_token in
  ret [("message", JStr "Logged out successfully")].

(** ** [app/middleware/workspace.py] *)

(** [UUID(s)] inside [try ... except ValueError], [None] when it raises. *)
Definition UUID_or_None (s : option string) : option uuid :=
  match s with
  | Some s => if String.eqb s "" then None else UUID s
  | None => None
  end.

(** What [workspace_context_middleware] stores in
    [request.state.workspace_id], from the [X-Workspace-ID] header and the
    [workspace_id] query parameter of the request. *)
Definition workspace_context_middleware
    (workspace_header workspace_query : option string) : option uuid :=
  let workspace_id := UUID_or_None workspace_header in
  match workspace_id with
  | Some _ => workspace_id
  | None => UUID_or_None workspace_query
  end.

(** [workspace_id] is [getattr(request.state, "workspace_id", None)]. *)
Definition require_workspace_context (workspace_id : option uuid)
    : outcome uuid :=
  match workspace_id with
  | None =>
      Raise (HTTPException HTTP_400_BAD_REQUEST
               ("Workspace context is required. "
                +:+ "Provide X-Workspace-ID header or workspace_id query parameter."))
  | Some workspace_id => Return workspace_id
  end.

End Embedding.

(** ** A small instance of the libraries

    A concrete instance on which the statements below are exercised: user
    ids are positive numbers written in binary, a password hash is the
    salt followed by the password, and a token is the binary numeral that
    codes its signing key, its algorithm and its claims. *)

Module Demo.

Fixpoint bits (p : positive) : string :=
  match p with
  | xH => "1"
  | xO q => String "0" (bits q)
  | xI q => String "1" (bits q)
  end.

Fixpoint unbits (s : string) : option positive :=
  match s with
  | EmptyString => None
  | String c rest =>
      match rest with
      | EmptyString => if Ascii.eqb c "1" then Some xH else None
      | String _ _ =>
          match unbits rest with
          | Some q =>
              if Ascii.eqb c "0" then Some (xO q)
              else if Ascii.eqb c "1" then Some (xI q)
              else None
          | None => None
          end
      end
  end.

#[export] Instance jval_eq_dec : EqDecision jval.
Proof. solve_decision. Defined.

Definition jval_to_sum (v : jval) : string + (Z + unit) :=
  match v with
  | JStr s => inl s
  | JInt z => inr (inl z)
  | JNull => inr (inr tt)
  end.

Definition jval_of_sum (x : string + (Z + unit)) : jval :=
  match x with
  | inl s => JStr s
  | inr (inl z) => JInt z
  | inr (inr _) => JNull
  end.

#[export] Instance jval_countable : Countable jval :=
  inj_countable' jval_to_sum jval_of_sum
    (fun v => match v with
              | JStr _ => eq_refl
              | JInt _ => eq_refl
              | JNull => eq_refl
              end).

Definition sealed (token : string) : option (string * string * dict) :=
  match unbits token with
  | Some p => decode p
  | None => None
  end.

Definition sign (claims : dict) (key algorithm : string) : string :=
  bits (encode (key, algorithm, claims)).

Definition payload_of (token : string) : option dict :=
  match sealed token with
  | Some (_, _, claims) => Some claims
  | None => None
  end.

Definition check (token key : string) (algorithms : list string) : bool :=
  match sealed token with
  | Some (k, a, _) => String.eqb k key && existsb (String.eqb a) algorithms
  | None => false
  end.

(** The numeral a string of decimal digits writes. *)
Fixpoint decimal (s : string) (acc : Z) : option Z :=
  match s with
  | EmptyString => Some acc
  | String c s' =>
      let n := Z.of_nat (nat_of_ascii c) in
      if Z.leb 48 n && Z.leb n 57 then decimal s' (10 * acc + (n - 48))
      else None
  end.

#[export] Instance libraries : Libraries := {|
  uuid := positive;
  uuid_str := bits;
  UUID := unbits;
  pwd_hash := fun password salt => salt +:+ "$" +:+ password;
  pwd_verify := fun password h =>
    match index 0 "$" h with
    | Some n => String.eqb (substring (S n) (String.length h - S n) h) password
    | None => false
    end;
  jws_sign := sign;
  jws_payload := payload_of;
  jws_check := check;
  int_of_str := fun s =>
    match s with
    | EmptyString => None
    | _ => decimal s 0
    end
|}.

#[export] Instance keyspace : Keyspace := {|
  table_mask := 3;
  bucket_hash := String.length
|}.

#[export] Instance settings : Settings := {|
  JWT_SECRET := "access-secret";
  JWT_REFRESH_SECRET := "refresh-secret";
  JWT_ALGORITHM := "HS256";
  ACCESS_TOKEN_EXPIRE_MINUTES := 15;
  REFRESH_TOKEN_EXPIRE_DAYS := 7
|}.

Definition long_sessions : Settings := {|
  JWT_SECRET := "access-secret";
  JWT_REFRESH_SECRET := "refresh-secret";
  JWT_ALGORITHM := "HS256";
  ACCESS_TOKEN_EXPIRE_MINUTES := 15;
  REFRESH_TOKEN_EXPIRE_DAYS := 14
|}.

Definition alice : User.t :=
  User.mk 5%positive "alice@example.com" (Some "salt$wonderland") "Alice"
    USER true None None.

(** An SSO-only user. *)
Definition bob : User.t :=
  User.mk 6%positive "bob@example.com" None "Bob" ADMIN true None None.

Definition w0 : world := {| db := [alice; bob]; redis := ∅; history := [] |}.

Definition t0 : Z := 1700000000.

Definition t1 : Z := t0 + 60.

Definition t2 : Z := t0 + 120.

(** Alice's refresh token, issued at [t0], and the state after her login. *)
Definition rt : string := create_refresh_token (token_data_of alice) t0.

Definition w1 : world :=
  snd (authenticate_user t0
         {| login_email := User.email alice; login_password := "wonderland" |}
         w0).

(** The pair a refresh at [t1] issues, and the state it leaves. *)
Definition at1 : string := create_access_token (token_data_of alice) None t1.

Definition rt1 : string := create_refresh_token (token_data_of alice) t1.

Definition w2 : world := snd (refresh_access_token t1 rt w1).

Definition nobody : world := {| db := []; redis := ∅; history := [] |}.



(** Alice's access token, issued at [t0]. *)
Definition at0 : string := create_access_token (token_data_of alice) None t0.

(** A deactivated user, and a state in which her refresh token of [t0] still
    has its allow-record. *)
Definition carol : User.t :=
  User.mk 7%positive "carol@example.com" (Some "salt$rabbit-hole") "Carol"
    USER false None None.

Definition carol_rt : string := create_refresh_token (token_data_of carol) t0.

Definition locked : world :=
  {| db := [alice; bob; carol];
     redis := store_setex t0 (refresh_key (uuid_str (User.id carol)) carol_rt)
                (7 * 24 * 3600) "1" ∅;
     history := [] |}.

(** A state with a pending password reset for Alice. *)
Definition pending : world :=
  {| db := [alice; bob];
     redis := store_setex t0 ("password_reset:" +:+ "r3s3t") 3600
                (uuid_str (User.id alice)) ∅;
     history := [] |}.

Definition dave : RegisterRequest :=
  {| register_email := "dave@example.com";
     register_password := "s3cret-pass";
     register_name := "Dave" |}.

(** The id drawn for Dave's row. *)
Definition daves_id : uuid := 8%positive.

End Demo.

(** * Properties *)

Section Properties.
Context `{lib : Libraries} `{cfg : Settings} `{kspace : Keyspace}.

(** ** Dictionaries *)

Lemma dict_get_set_eq (k : string) (v : jval) (d : dict) :
  dict_get k (dict_set k v d) = Some v.
Proof.
  induction d as [|[k' v'] d IH]; simpl.
  - by rewrite String.eqb_refl.
  - destruct (String.eqb k k') eqn:E; simpl; rewrite ?E; [|done].
    by rewrite String.eqb_refl.
Qed.

Lemma dict_get_set_ne (k k' : string) (v : jval) (d : dict) :
  k <> k' -> dict_get k (dict_set k' v d) = dict_get k d.
Proof.
  intros Hne. induction d as [|[k0 v0] d IH]; simpl.
  - by apply String.eqb_neq in Hne as ->.
  - destruct (String.eqb k' k0) eqn:E; simpl.
    + apply String.eqb_eq in E as <-.
      by apply String.eqb_neq in Hne as ->.
    + by rewrite IH.
Qed.

Lemma dict_set_keys (k : string) (v : jval) (d : dict) (x : string) :
  x ∈ fmap fst (dict_set k v d) -> x = k \/ x ∈ fmap fst d.
Proof.
  induction d as [|[k' v'] d IH]; simpl.
  - rewrite list_elem_of_singleton. auto.
  - destruct (String.eqb k k') eqn:E; simpl; rewrite !elem_of_cons.
    + apply String.eqb_eq in E as ->. tauto.
    + intros [->|Hin]; [tauto|]. destruct (IH Hin); tauto.
Qed.

Lemma dict_set_NoDup (k : string) (v : jval) (d : dict) :
  NoDup (fmap fst d) -> NoDup (fmap fst (dict_set k v d)).
Proof.
  induction d as [|[k' v'] d IH]; simpl; intros Hnd.
  - apply NoDup_singleton.
  - apply list.NoDup_cons in Hnd as [Hk' Hnd].
    destruct (String.eqb k k') eqn:E; simpl.
    + apply String.eqb_eq in E as ->. by apply list.NoDup_cons.
    + apply list.NoDup_cons. split; [|by apply IH].
      intros [->|Hin]%dict_set_keys; [|done].
      by rewrite String.eqb_refl in E.
Qed.

(** The claims of a token: the caller's data with [exp] and [type] set. *)
Lemma stamped_NoDup (data : dict) (e : Z) (ty : string) :
  NoDup (fmap fst data) ->
  NoDup (fmap fst (dict_update data [("exp", JInt e); ("type", JStr ty)])).
Proof. intros Hnd. simpl. by do 2 apply dict_set_NoDup. Qed.

Lemma stamped_type (data : dict) (e : Z) (ty : string) :
  dict_get "type" (dict_update data [("exp", JInt e); ("type", JStr ty)])
  = Some (JStr ty).
Proof. simpl. apply dict_get_set_eq. Qed.

Lemma stamped_exp (data : dict) (e : Z) (ty : string) :
  dict_get "exp" (dict_update data [("exp", JInt e); ("type", JStr ty)])
  = Some (JInt e).
Proof. simpl. rewrite dict_get_set_ne by done. apply dict_get_set_eq. Qed.

Lemma token_data_NoDup (user : User.t) : NoDup (fmap fst (token_data_of user)).
Proof. apply (bool_decide_unpack _). by compute. Qed.

(** ** The verifier *)

Lemma int_claim_cases (v : jval) :
  (exists z, int_claim v = Return z) \/
  int_claim v = Raise (JWTError JWTClaimsError) \/
  (int_claim v = Raise TypeError /\ v = JNull).
Proof.
  unfold int_claim, py_int.
  destruct v as [s|z|]; [destruct (int_of_str s)|..]; eauto.
Qed.

(** What a time claim does to its check: absent or a numeral, the check goes
    on to compare it; a string that is no numeral is a [JWTClaimsError]; a
    null is a [TypeError]. *)
Lemma time_claim_cases (claims : dict) (k : string)
    (test : Z -> outcome unit) :
  let check :=
    match dict_get k claims with
    | None => Return tt
    | Some v => and_then (int_claim v) test
    end in
  (dict_get k claims = None /\ check = Return tt) \/
  (exists v z, dict_get k claims = Some v /\ v <> JNull /\
               int_claim v = Return z /\ check = test z) \/
  (exists v, dict_get k claims = Some v /\ v <> JNull /\
             check = Raise (JWTError JWTClaimsError)) \/
  (dict_get k claims = Some JNull /\ check = Raise TypeError).
Proof.
  simpl. destruct (dict_get k claims) as [v|]; [|by left].
  right. destruct (int_claim_cases v) as [[z Hz]|[Hz|[Hz ->]]].
  - left. exists v, z. rewrite Hz. repeat split. by intros ->.
  - right; left. exists v. rewrite Hz. repeat split. by intros ->.
  - right; right. by rewrite Hz.
Qed.

Lemma validate_iat_cases (claims : dict) :
  (_validate_iat claims = Return tt /\ dict_get "iat" claims <> Some JNull) \/
  (_validate_iat claims = Raise (JWTError JWTClaimsError) /\
   dict_get "iat" claims <> Some JNull) \/
  (_validate_iat claims = Raise TypeError /\
   dict_get "iat" claims = Some JNull).
Proof.
  destruct (time_claim_cases claims "iat" (fun _ => Return tt))
    as [[Hk Hc]|[(v & z & Hk & Hv & _ & Hc)|[(v & Hk & Hv & Hc)|[Hk Hc]]]];
    unfold _validate_iat; rewrite Hc, Hk; [left|left|right; left|by auto];
    split; congruence.
Qed.

Lemma validate_nbf_cases (claims : dict) (now : Z) :
  (_validate_nbf claims now = Return tt /\
   dict_get "nbf" claims <> Some JNull) \/
  ((exists kind, _validate_nbf claims now = Raise (JWTError kind)) /\
   dict_get "nbf" claims <> Some JNull) \/
  (_validate_nbf claims now = Raise TypeError /\
   dict_get "nbf" claims = Some JNull).
Proof.
  destruct (time_claim_cases claims "nbf"
              (fun nbf => if Z.ltb now nbf
                          then Raise (JWTError JWTClaimsError)
                          else Return tt))
    as [[Hk Hc]|[(v & z & Hk & Hv & _ & Hc)|[(v & Hk & Hv & Hc)|[Hk Hc]]]];
    unfold _validate_nbf; rewrite Hc, Hk; [left| |right; left|by auto].
  - split; congruence.
  - destruct (Z.ltb now z); [right; left|left]; split; eauto; congruence.
  - split; [eauto|congruence].
Qed.

Lemma validate_exp_cases (claims : dict) (now : Z) :
  (_validate_exp claims now = Return tt /\
   dict_get "exp" claims <> Some JNull) \/
  ((exists kind, _validate_exp claims now = Raise (JWTError kind)) /\
   dict_get "exp" claims <> Some JNull) \/
  (_validate_exp claims now = Raise TypeError /\
   dict_get "exp" claims = Some JNull).
Proof.
  destruct (time_claim_cases claims "exp"
              (fun exp => if Z.ltb exp now
                          then Raise (JWTError ExpiredSignatureError)
                          else Return tt))
    as [[Hk Hc]|[(v & z & Hk & Hv & _ & Hc)|[(v & Hk & Hv & Hc)|[Hk Hc]]]];
    unfold _validate_exp; rewrite Hc, Hk; [left| |right; left|by auto].
  - split; congruence.
  - destruct (Z.ltb z now); [right; left|left]; split; eauto; congruence.
  - split; [eauto|congruence].
Qed.

(** The checks after the time claims raise nothing but a [JWTError]. *)
Lemma validate_rest_cases (claims : dict) :
  let rest :=
    and_then (_validate_aud claims) (fun _ =>
    and_then (_validate_sub claims) (fun _ =>
    and_then (_validate_jti claims) (fun _ =>
    _validate_at_hash claims))) in
  rest = Return tt \/ exists kind, rest = Raise (JWTError kind).
Proof.
  unfold _validate_aud, _validate_sub, _validate_jti, _validate_at_hash.
  simpl.
  destruct (dict_get "aud" claims); simpl; [eauto|].
  destruct (dict_get "sub" claims) as [[]|]; simpl; eauto;
    (destruct (dict_get "jti" claims) as [[]|]; simpl; eauto;
     destruct (dict_get "at_hash" claims); simpl; eauto).
Qed.

(** A [TypeError] comes from a null time claim, and from nothing else: the
    first of [iat], [nbf] and [exp] that the validation reaches and finds
    null. *)
Lemma validate_claims_TypeError (claims : dict) (now : Z) :
  _validate_claims claims now = Raise TypeError <->
  dict_get "iat" claims = Some JNull \/
  (_validate_iat claims = Return tt /\
   dict_get "nbf" claims = Some JNull) \/
  (_validate_iat claims = Return tt /\
   _validate_nbf claims now = Return tt /\
   dict_get "exp" claims = Some JNull).
Proof.
  unfold _validate_claims.
  destruct (validate_iat_cases claims) as [[Hi Hin]|[[Hi Hin]|[Hi Hin]]];
    rewrite Hi; simpl; [|split; [done|intros [?|[[? _]|[? _]]]; congruence]
                        |split; auto].
  destruct (validate_nbf_cases claims now)
    as [[Hn Hnn]|[[[kn Hn] Hnn]|[Hn Hnn]]]; rewrite Hn; simpl;
    [|split; [done|intros [?|[[_ ?]|(_ & ? & _)]]; congruence]
     |split; auto].
  destruct (validate_exp_cases claims now)
    as [[He Hen]|[[[ke He] Hen]|[He Hen]]]; rewrite He; simpl;
    [|split; [done|intros [?|[[_ ?]|(_ & _ & ?)]]; congruence]
     |split; auto].
  destruct (validate_rest_cases claims) as [Hr|[kr Hr]]; simpl in Hr;
    rewrite Hr; (split; [done|intros [?|[[_ ?]|(_ & _ & ?)]]; congruence]).
Qed.

(** The three ways the validation ends. *)
Lemma validate_claims_cases (claims : dict) (now : Z) :
  _validate_claims claims now = Return tt \/
  (exists kind, _validate_claims claims now = Raise (JWTError kind)) \/
  _validate_claims claims now = Raise TypeError.
Proof.
  unfold _validate_claims.
  destruct (validate_iat_cases claims) as [[-> _]|[[-> _]|[-> _]]];
    simpl; eauto.
  destruct (validate_nbf_cases claims now)
    as [[-> _]|[[[kn ->] _]|[-> _]]]; simpl; eauto.
  destruct (validate_exp_cases claims now)
    as [[-> _]|[[[ke ->] _]|[-> _]]]; simpl; eauto.
  destruct (validate_rest_cases claims) as [Hr|[kr Hr]]; simpl in Hr;
    rewrite Hr; eauto.
Qed.

Lemma validate_issued (claims : dict) (e now : Z) :
  issued_form claims ->
  dict_get "exp" claims = Some (JInt e) ->
  _validate_claims claims now
  = if Z.ltb e now then Raise (JWTError ExpiredSignatureError)
    else Return tt.
Proof.
  intros (Hiat & Hnbf & Haud & Hjti & Hat & Hsub) Hexp.
  unfold _validate_claims, _validate_iat, _validate_nbf, _validate_exp,
    _validate_aud, _validate_sub, _validate_jti, _validate_at_hash.
  rewrite Hiat, Hnbf, Hexp, Haud, Hjti, Hat. simpl.
  destruct (Z.ltb e now); [done|].
  by destruct Hsub as [->|[s ->]].
Qed.

Lemma issued_form_own (user : User.t) (e : Z) (ty : string) :
  issued_form
    (dict_update (token_data_of user) [("exp", JInt e); ("type", JStr ty)]).
Proof. repeat split; try done. right. by eexists. Qed.

(** [jwt.decode] returns the claims of the token, or raises a [JWTError]
    or, on a null time claim, a [TypeError]. *)
Lemma jwt_decode_cases (token key : string) (algs : list string) (now : Z) :
  (exists claims,
     jwt_decode token key algs now = Return claims /\
     jws_payload token = Some claims) \/
  (exists kind, jwt_decode token key algs now = Raise (JWTError kind)) \/
  (jwt_decode token key algs now = Raise TypeError /\
   jws_check token key algs = true /\
   exists claims,
     jws_payload token = Some claims /\
     _validate_claims claims now = Raise TypeError).
Proof.
  unfold jwt_decode.
  destruct (jws_check token key algs); [|eauto].
  destruct (jws_payload token) as [claims|]; [|eauto].
  destruct (validate_claims_cases claims now) as [Hv|[[kind Hv]|Hv]];
    rewrite Hv; simpl; eauto 8.
Qed.



Lemma decode_token_wrong_type (token ty : string) (now : Z) (p : dict) :
  jws_payload token = Some p ->
  _validate_claims p now <> Raise TypeError ->
  py_ne_str (dict_get "type" p) ty = true ->
  decode_token token ty now = Return None.
Proof.
  intros Hp Hv Hty. unfold decode_token, jwt_decode. rewrite Hp.
  destruct (jws_check _ _ _); [|done].
  destruct (validate_claims_cases p now) as [Hc|[[kind Hc]|Hc]];
    [| |done]; rewrite Hc; simpl; by rewrite ?Hty.
Qed.

(** The payload [decode_token] returns is the one the token carries,
    whatever the time of the check. *)
Lemma decode_token_payload (token ty : string) (now : Z) (p : dict) :
  decode_token token ty now = Return (Some p) -> jws_payload token = Some p.
Proof.
  unfold decode_token.
  destruct (jwt_decode_cases token
              (if String.eqb ty "access" then JWT_SECRET else JWT_REFRESH_SECRET)
              [JWT_ALGORITHM] now)
    as [(claims & -> & Hp)|[[kind ->]|[-> _]]]; [|done..].
  destruct (py_ne_str _ _); [done|]. by intros [= <-].
Qed.

(** What [decode_token] returns for a token this code signed with the secret
    of the type it is checked as. *)
Lemma decode_token_signed (claims : dict) (ty : string) (e now : Z) :
  JoseLaws ->
  NoDup (fmap fst claims) ->
  issued_form claims ->
  dict_get "exp" claims = Some (JInt e) ->
  dict_get "type" claims = Some (JStr ty) ->
  decode_token
    (jwt_encode claims
       (if String.eqb ty "access" then JWT_SECRET else JWT_REFRESH_SECRET)
       JWT_ALGORITHM) ty now
  = Return (if Z.ltb e now then None else Some claims).
Proof.
  intros Hlaws Hnd Hform Hexp Hty. unfold decode_token, jwt_decode, jwt_encode.
  rewrite jws_check_sign, jws_payload_sign by done.
  rewrite (validate_issued claims e now Hform Hexp).
  destruct (Z.ltb e now); [done|].
  simpl. rewrite Hty. simpl. by rewrite String.eqb_refl.
Qed.

(** The claims this code signs from a caller's [data]: a null time claim in
    them can only come from [data], since [exp] is set to a number. *)
Lemma validate_stamped (data : dict) (e now : Z) (ty : string) :
  dict_get "iat" data <> Some JNull ->
  dict_get "nbf" data <> Some JNull ->
  _validate_claims
    (dict_update data [("exp", JInt e); ("type", JStr ty)]) now
  <> Raise TypeError.
Proof.
  intros Hiat Hnbf [Hi|[[_ Hn]|(_ & _ & He)]]%validate_claims_TypeError.
  - simpl in Hi. by rewrite !dict_get_set_ne in Hi.
  - simpl in Hn. by rewrite !dict_get_set_ne in Hn.
  - by rewrite stamped_exp in He.
Qed.


(** C6. The access token issued for a principal decodes, up to its embedded
    expiry, to a payload that carries the principal's subject, email and
    role; after the expiry it decodes to [None]. *)
Theorem access_token_round_trip (p : User.t) (t0 now : Z) :
  JoseLaws ->
  let token := create_access_token (token_data_of p) None t0 in
  let expiry := t0 + ACCESS_TOKEN_EXPIRE_MINUTES * 60 in
  (now <= expiry ->
   exists payload,
     decode_token token "access" now = Return (Some payload) /\
     dict_get "sub" payload = Some (JStr (uuid_str (User.id p))) /\
     dict_get "email" payload = Some (JStr (User.email p)) /\
     dict_get "role" payload = Some (JStr (UserRole_value (User.role p))) /\
     dict_get "exp" payload = Some (JInt expiry)) /\
  (expiry < now -> decode_token token "access" now = Return None).
Proof.
  intros Hlaws token expiry.
  pose proof (decode_token_signed
    (dict_update (token_data_of p)
       [("exp", JInt expiry); ("type", JStr "access")])
    "access" expiry now Hlaws
    (stamped_NoDup _ _ _ (token_data_NoDup p))
    (issued_form_own _ _ _)
    (stamped_exp _ _ _) (stamped_type _ _ _)) as Hdec.
  change (decode_token token "access" now
          = Return (if Z.ltb expiry now then None
                    else Some (dict_update (token_data_of p)
                      [("exp", JInt expiry); ("type", JStr "access")])))
    in Hdec.
  split.
  - intros Hle. apply Z.ltb_ge in Hle. rewrite Hle in Hdec.
    eexists. split; [exact Hdec|]. by compute.
  - intros Hlt. apply Z.ltb_lt in Hlt. by rewrite Hlt in Hdec.
Qed.

(** ** Rows *)

Lemma filter_none {A} (p : A -> bool) (l : list A) :
  (forall x, x ∈ l -> p x = false) -> List.filter p l = [].
Proof.
  induction l as [|a l IH]; simpl; intros Hall; [done|].
  rewrite (Hall a) by apply list_elem_of_here.
  apply IH. intros x Hx. apply Hall. by apply list_elem_of_further.
Qed.

(** A query on a unique column returns no row or one row. *)
Lemma filter_key_cases {A B} (f : A -> B) (b : B) (p : A -> bool)
    (l : list A) :
  (forall x, p x = true <-> f x = b) ->
  NoDup (f <$> l) ->
  (List.filter p l = [] /\ forall x, x ∈ l -> f x <> b) \/
  (exists u, List.filter p l = [u] /\ u ∈ l /\ f u = b).
Proof.
  intros Hp. induction l as [|a l IH]; simpl; intros Hnd.
  - left. split; [done|]. intros x Hx. by apply not_elem_of_nil in Hx.
  - apply list.NoDup_cons in Hnd as [Ha Hnd].
    destruct (p a) eqn:Hpa.
    + right. exists a. apply Hp in Hpa. split; [|split; [left|done]].
      f_equal. apply filter_none. intros x Hx.
      destruct (p x) eqn:Hpx; [|done]. apply Hp in Hpx.
      destruct Ha. rewrite Hpa, <- Hpx. by apply list_elem_of_fmap_2.
    + destruct (IH Hnd) as [[Hnil Hall]|(u & Hu & Hin & Hfu)].
      * left. split; [done|]. intros x [->|Hx]%elem_of_cons; [|by apply Hall].
        intros Hfa. apply Hp in Hfa. congruence.
      * right. exists u. split; [done|]. split; [by right|done].
Qed.

Lemma filter_unique {A B} (f : A -> B) (p : A -> bool) (l : list A) (u : A) :
  (forall x, p x = true <-> f x = f u) ->
  NoDup (f <$> l) -> u ∈ l -> List.filter p l = [u].
Proof.
  intros Hp. induction l as [|a l IH]; simpl; intros Hnd Hin.
  - by apply not_elem_of_nil in Hin.
  - apply list.NoDup_cons in Hnd as [Ha Hnd].
    apply elem_of_cons in Hin as [->|Hin].
    + rewrite (proj2 (Hp a) eq_refl). f_equal. apply filter_none.
      intros x Hx. destruct (p x) eqn:Hpx; [|done]. apply Hp in Hpx.
      destruct Ha. rewrite <- Hpx. by apply list_elem_of_fmap_2.
    + destruct (p a) eqn:Hpa; [|by apply IH].
      apply Hp in Hpa. destruct Ha. rewrite Hpa. by apply list_elem_of_fmap_2.
Qed.

Lemma select_by_email (l : list User.t) (u : User.t) :
  NoDup (User.email <$> l) -> u ∈ l ->
  List.filter (fun x => String.eqb (User.email x) (User.email u)) l = [u].
Proof. apply (filter_unique User.email). intros x. apply String.eqb_eq. Qed.

Lemma select_by_id (l : list User.t) (u : User.t) :
  NoDup (User.id <$> l) -> u ∈ l ->
  List.filter (fun x => bool_decide (User.id x = User.id u)) l = [u].
Proof. apply (filter_unique User.id). intros x. apply bool_decide_eq_true. Qed.

(** ** Login *)

(** C10. A principal without a password hash is refused by
    [authenticate_user] with 401 "Incorrect email or password" whatever the
    password, and that is the outcome of a wrong password for a principal
    that has one; neither attempt changes the state. *)
Theorem sso_only_user_cannot_log_in (now : Z) (w : world) (sso : User.t)
    (password : string) :
  NoDup (User.email <$> db w) ->
  sso ∈ db w ->
  User.password_hash sso = None ->
  authenticate_user now
    {| login_email := User.email sso; login_password := password |} w
  = (Raise (HTTPException 401 "Incorrect email or password"), w) /\
  (forall (w2 : world) (other : User.t) (h wrong : string),
     NoDup (User.email <$> db w2) ->
     other ∈ db w2 ->
     User.password_hash other = Some h ->
     verify_password wrong h = false ->
     authenticate_user now
       {| login_email := User.email other; login_password := wrong |} w2
     = (Raise (HTTPException 401 "Incorrect email or password"), w2)).
Proof.
  intros Hnd Hin Hnone. split.
  - unfold authenticate_user, bind, select_where; simpl.
    rewrite (select_by_email _ _ Hnd Hin); simpl.
    unfold password_rejected. by rewrite Hnone.
  - intros w2 other h wrong Hnd2 Hin2 Hsome Hbad.
    unfold authenticate_user, bind, select_where; simpl.
    rewrite (select_by_email _ _ Hnd2 Hin2); simpl.
    unfold password_rejected. rewrite Hsome, Hbad.
    by destruct (String.eqb h "").
Qed.

(** ** Forgotten passwords *)

(** C9. The forgot-password endpoint answers with the same message whether
    or not a principal has the given email; when none has, nothing is
    stored and no error is raised. *)
Theorem forgot_password_uniform (now : Z) (email : string) :
  (forall (w1 w2 : world) (token1 token2 : string),
     NoDup (User.email <$> db w1) ->
     NoDup (User.email <$> db w2) ->
     fst (forgot_password now email token1 w1)
     = Return generic_reset_response /\
     fst (forgot_password now email token1 w1)
     = fst (forgot_password now email token2 w2)) /\
  (forall (w : world) (token : string),
     (forall u, u ∈ db w -> User.email u <> email) ->
     forgot_password now email token w = (Return generic_reset_response, w) /\
     create_password_reset_token now email token w = (Return "", w)).
Proof.
  assert (Hresp : forall (w : world) (token : string),
            NoDup (User.email <$> db w) ->
            fst (forgot_password now email token w)
            = Return generic_reset_response).
  { intros w token Hnd.
    unfold forgot_password, create_password_reset_token, bind, select_where.
    simpl.
    destruct (filter_key_cases User.email email
                (fun u => String.eqb (User.email u) email) (db w))
      as [[-> _]|(u & -> & _ & _)]; try done.
    intros x. apply String.eqb_eq. }
  split.
  - intros w1 w2 token1 token2 Hnd1 Hnd2.
    by rewrite !Hresp.
  - intros w token Hnone.
    unfold forgot_password, create_password_reset_token, bind, select_where.
    simpl. rewrite filter_none; [done|].
    intros x Hx. apply String.eqb_neq. by apply Hnone.
Qed.

(** ** Rotation *)

Ltac run_refresh :=
  unfold refresh_access_token, bind, lift, _check_refresh_token,
    _revoke_refresh_token, _store_refresh_token, redis_exists, redis_delete,
    redis_setex, select_where, UUID_of, scalar_one_or_none, ret, raise.

(** The two ways a refresh ends: it raises and leaves the state as it was,
    or it returns a pair after the revoke and the store step, both keyed by
    the subject the presented token carries. *)
Lemma refresh_cases (now : Z) (refresh_token : string) (w : world)
    (P : outcome (string * string) * world -> Prop) :
  (forall e, P (Raise e, w)) ->
  (forall payload sub new_access new_refresh,
     jws_payload refresh_token = Some payload ->
     dict_get "sub" payload = Some sub ->
     py_truthy (Some sub) = true ->
     store_exists now (refresh_key (py_format sub) refresh_token) (redis w)
     = true ->
     P (Return (new_access, new_refresh),
        write_redis
          (store_setex now (refresh_key (py_format sub) new_refresh)
             (7 * 24 * 3600) "1"
             (store_delete [refresh_key (py_format sub) refresh_token]
                (redis w)))
          (write_redis
             (store_delete [refresh_key (py_format sub) refresh_token]
                (redis w))
             w))) ->
  P (refresh_access_token now refresh_token w).
Proof.
  intros Hraise Hreturn. run_refresh.
  destruct (decode_token refresh_token "refresh" now)
    as [[payload|]|e0] eqn:Hdec; [|apply Hraise..].
  apply decode_token_payload in Hdec.
  destruct payload as [|kv payload]; [apply Hraise|].
  revert Hdec. generalize (kv :: payload). clear kv payload.
  intros payload Hdec.
  destruct (dict_get "sub" payload) as [sub|] eqn:Hsub; [|apply Hraise].
  destruct (py_truthy (Some sub)) eqn:Htruthy; cbn [negb]; [|apply Hraise].
  destruct (store_exists now (refresh_key (py_format sub) refresh_token)
              (redis w)) eqn:Hlive; cbn [negb]; [|apply Hraise].
  revert Htruthy Hlive Hsub.
  destruct sub as [s|z|]; [|intros; apply Hraise..].
  intros Htruthy Hlive Hsub.
  destruct (UUID s) as [uid|]; [|apply Hraise].
  destruct (List.filter (fun u => bool_decide (User.id u = uid)) (db w))
    as [|u [|u' rows]]; [apply Hraise| |apply Hraise].
  destruct (User.is_active u); cbn [negb]; [|apply Hraise].
  by eapply Hreturn.
Qed.

(** A token whose allow-record is missing is refused as revoked. *)
Lemma refresh_of_revoked_token (now : Z) (refresh_token : string) (w : world)
    (payload : dict) (sub : jval) :
  decode_token refresh_token "refresh" now = Return (Some payload) ->
  dict_get "sub" payload = Some sub ->
  py_truthy (Some sub) = true ->
  store_exists now (refresh_key (py_format sub) refresh_token) (redis w)
  = false ->
  refresh_access_token now refresh_token w
  = (Raise (HTTPException 401 "Refresh token has been revoked"), w).
Proof.
  intros Hdec Hsub Htruthy Hgone. run_refresh.
  rewrite Hdec. destruct payload as [|kv payload]; [done|].
  rewrite Hsub, Htruthy. simpl. by rewrite Hgone.
Qed.

(** C4. A refresh that fails leaves the state as it was, and it fails when
    the presented token does not decode, when its allow-record is missing,
    and when its principal is missing or inactive. *)
Theorem refresh_failure_is_atomic (now : Z) (refresh_token : string)
    (w : world) :
  (forall e w', refresh_access_token now refresh_token w = (Raise e, w') ->
                w' = w) /\
  (decode_token refresh_token "refresh" now = Return None ->
   refresh_access_token now refresh_token w
   = (Raise (HTTPException 401 "Invalid refresh token"), w)) /\
  (forall payload sub,
     decode_token refresh_token "refresh" now = Return (Some payload) ->
     dict_get "sub" payload = Some sub ->
     py_truthy (Some sub) = true ->
     store_exists now (refresh_key (py_format sub) refresh_token) (redis w)
     = false ->
     refresh_access_token now refresh_token w
     = (Raise (HTTPException 401 "Refresh token has been revoked"), w)) /\
  (forall payload s uid,
     decode_token refresh_token "refresh" now = Return (Some payload) ->
     dict_get "sub" payload = Some (JStr s) ->
     s <> "" ->
     store_exists now (refresh_key s refresh_token) (redis w) = true ->
     UUID s = Some uid ->
     NoDup (User.id <$> db w) ->
     (forall u, u ∈ db w -> User.id u = uid -> User.is_active u = false) ->
     refresh_access_token now refresh_token w
     = (Raise (HTTPException 401 "User not found or inactive"), w)).
Proof.
  split; [|split; [|split]].
  - intros e w'. apply refresh_cases.
    + by intros e0 [= _ <-].
    + by intros payload sub new_access new_refresh _ _ _ _ [=].
  - intros Hdec. run_refresh. by rewrite Hdec.
  - intros payload sub. apply refresh_of_revoked_token.
  - intros payload s uid Hdec Hsub Hs Hlive Huuid Hnd Hinactive. run_refresh.
    rewrite Hdec. destruct payload as [|kv payload]; [done|].
    rewrite Hsub. simpl. apply String.eqb_neq in Hs as ->. simpl.
    rewrite Hlive, Huuid. simpl.
    destruct (filter_key_cases User.id uid
                (fun u => bool_decide (User.id u = uid)) (db w))
      as [[-> _]|(u & -> & Hin & Hid)]; try done.
    { intros x. apply bool_decide_eq_true. }
    by rewrite (Hinactive u Hin Hid).
Qed.


(** ** The keyspace *)

Lemma store_exists_lookup_None (now : Z) (k : string) (r : store) :
  r !! k = None -> store_exists now k r = false.
Proof. intros Hk. unfold store_exists, store_get. by rewrite Hk. Qed.

(** A key that was set is served up to and at its deadline, and no
    longer after it. *)
Lemma store_get_setex (now now' : Z) (k v : string) (ttl : Z) (r : store) :
  store_get now' k (store_setex now k ttl v r)
  = if Z.leb now' (now + ttl) then Some v else None.
Proof.
  unfold store_get, store_setex, live. by rewrite lookup_insert_eq.
Qed.

Lemma store_get_setex_eq (now now' : Z) (k v : string) (ttl : Z) (r : store) :
  now' < now + ttl -> store_get now' k (store_setex now k ttl v r) = Some v.
Proof.
  intros Httl. rewrite store_get_setex.
  by replace (Z.leb now' (now + ttl)) with true
    by (symmetry; apply Z.leb_le; lia).
Qed.





Lemma store_exists_setex_live (now now' : Z) (k v : string) (ttl : Z)
    (r : store) :
  now' < now + ttl -> store_exists now' k (store_setex now k ttl v r) = true.
Proof.
  intros Httl. unfold store_exists. by rewrite store_get_setex_eq.
Qed.

Lemma store_exists_setex_eq (now : Z) (k v : string) (ttl : Z) (r : store) :
  0 < ttl -> store_exists now k (store_setex now k ttl v r) = true.
Proof. intros Httl. apply store_exists_setex_live. lia. Qed.

Lemma store_exists_setex_ne (now now' : Z) (k k' v : string) (ttl : Z)
    (r : store) :
  k <> k' ->
  store_exists now' k (store_setex now k' ttl v r) = store_exists now' k r.
Proof.
  intros Hne. unfold store_exists, store_get, store_setex.
  by rewrite lookup_insert_ne.
Qed.

Lemma store_exists_delete_eq (now : Z) (k : string) (r : store) :
  store_exists now k (store_delete [k] r) = false.
Proof. apply store_exists_lookup_None. simpl. apply lookup_delete_eq. Qed.

Lemma store_exists_delete_ne (now : Z) (k k' : string) (r : store) :
  k <> k' -> store_exists now k (store_delete [k'] r) = store_exists now k r.
Proof.
  intros Hne. unfold store_exists, store_get. simpl.
  by rewrite lookup_delete_ne.
Qed.

Lemma store_delete_subseteq (ks : list string) (r : store) :
  store_delete ks r ⊆ r.
Proof.
  induction ks as [|k ks IH]; simpl; [done|].
  etrans; [apply delete_subseteq|done].
Qed.

Lemma dead_exists (now now' : Z) (k : string) (r : store) :
  dead now k r -> now <= now' -> store_exists now' k r = false.
Proof.
  unfold dead, store_exists, store_get, live. intros Hdead Hle.
  destruct (r !! k) as [e|]; [|done].
  by replace (Z.leb now' (deadline e)) with false
    by (symmetry; apply Z.leb_gt; lia).
Qed.

Lemma dead_weaken (now : Z) (k : string) (r r' : store) :
  r' ⊆ r -> dead now k r -> dead now k r'.
Proof.
  unfold dead. intros Hsub Hdead.
  destruct (r' !! k) as [e|] eqn:Hk; [|done].
  by rewrite (lookup_weaken _ _ _ _ Hk Hsub) in Hdead.
Qed.

Lemma refresh_key_inj (user_id t1 t2 : string) :
  refresh_key user_id t1 = refresh_key user_id t2 -> t1 = t2.
Proof.
  unfold refresh_key. intros Heq.
  by do 3 apply (inj (String.append _)) in Heq.
Qed.

(** ** Glob patterns *)

Lemma glob_star_all (n : nat) (s : string) :
  glob_fuel (S (S n)) "*" s = true.
Proof.
  simpl. induction s as [|c s IH]; simpl; [done|].
  by rewrite IH.
Qed.

Lemma glob_prefix (lit s : string) (n : nat) :
  glob_plain lit = true ->
  (String.length lit + 2 <= n)%nat ->
  glob_fuel n (lit +:+ "*") (lit +:+ s) = true.
Proof.
  revert n. induction lit as [|c lit IH]; intros n Hplain Hn.
  - destruct n as [|[|n]]; simpl in Hn; try lia. apply glob_star_all.
  - simpl in Hplain. apply andb_true_iff in Hplain as [Hc Hplain].
    apply negb_true_iff in Hc. unfold is_glob_meta in Hc.
    repeat (apply orb_false_iff in Hc as [Hc ?]).
    destruct n as [|n]; simpl in Hn; [lia|].
    change (String c lit +:+ "*") with (String c (lit +:+ "*")).
    change (String c lit +:+ s) with (String c (lit +:+ s)).
    cbn [glob_fuel].
    replace (Ascii.eqb c "*") with false by done.
    replace (Ascii.eqb c "?") with false by done.
    replace (Ascii.eqb c "[") with false by done.
    replace (Ascii.eqb c "\") with false by done.
    rewrite Ascii.eqb_refl. simpl. apply IH; [done|lia].
Qed.

Lemma string_length_append (s1 s2 : string) :
  String.length (s1 +:+ s2) = (String.length s1 + String.length s2)%nat.
Proof.
  induction s1 as [|c s1 IH]; [done|].
  change (String c s1 +:+ s2) with (String c (s1 +:+ s2)). simpl.
  by rewrite IH.
Qed.

Lemma string_append_assoc (s1 s2 s3 : string) :
  (s1 +:+ s2) +:+ s3 = s1 +:+ (s2 +:+ s3).
Proof.
  induction s1 as [|c s1 IH]; [done|].
  change ((String c s1 +:+ s2) +:+ s3) with (String c ((s1 +:+ s2) +:+ s3)).
  by rewrite IH.
Qed.

Lemma glob_plain_append (s1 s2 : string) :
  glob_plain (s1 +:+ s2) = glob_plain s1 && glob_plain s2.
Proof.
  induction s1 as [|c s1 IH]; [done|].
  change (String c s1 +:+ s2) with (String c (s1 +:+ s2)). simpl.
  by rewrite IH, andb_assoc.
Qed.

(** The pattern of [_revoke_all_refresh_tokens] matches every key under
    which a refresh token of that user is stored. *)
Lemma revoke_pattern_matches (user_id token : string) :
  glob_plain user_id = true ->
  glob_match ("refresh_token:" +:+ user_id +:+ ":*")
    (refresh_key user_id token) = true.
Proof.
  intros Hplain. unfold glob_match, refresh_key.
  set (lit := "refresh_token:" +:+ user_id +:+ ":").
  replace ("refresh_token:" +:+ user_id +:+ ":*") with (lit +:+ "*")
    by (unfold lit; by rewrite !string_append_assoc).
  replace ("refresh_token:" +:+ user_id +:+ ":" +:+ token)
    with (lit +:+ token) by (unfold lit; by rewrite !string_append_assoc).
  apply glob_prefix.
  - unfold lit. by rewrite !glob_plain_append, Hplain.
  - rewrite string_length_append. simpl. lia.
Qed.


(** ** The scan loop *)

Lemma bucket_bound (k : string) : (bucket k <= table_mask)%nat.
Proof.
  unfold bucket.
  pose proof (Nat.mod_upper_bound (bucket_hash k) (S table_mask)). lia.
Qed.

Lemma not_exists_dead (now : Z) (k : string) (r : store) :
  store_exists now k r = false -> dead now k r.
Proof.
  unfold store_exists, store_get, dead, live.
  destruct (r !! k) as [e|]; [|done].
  destruct (Z.leb now (deadline e)) eqn:E; [done|].
  intros _. by apply Z.leb_gt.
Qed.

Lemma scan_returns (now : Z) (cursor : nat) (pattern k : string) (r : store) :
  bucket k = cursor ->
  glob_match pattern k = true ->
  store_exists now k r = true ->
  k ∈ snd (store_scan now cursor pattern r).
Proof.
  intros Hb Hm He. unfold store_scan. simpl.
  apply list_elem_of_In, filter_In. split.
  - apply list_elem_of_In.
    unfold store_exists, store_get in He.
    destruct (r !! k) as [e|] eqn:Hk; [|done].
    apply (list_elem_of_fmap_2' _ _ (k, e)); [|done].
    by apply elem_of_map_to_list.
  - rewrite Hm, He. by apply Nat.eqb_eq in Hb as ->.
Qed.

(** One pass over a bucket leaves its matching keys dead. *)
Lemma scan_bucket_dead (now : Z) (cursor : nat) (pattern k : string)
    (r : store) :
  bucket k = cursor ->
  glob_match pattern k = true ->
  dead now k (store_delete (snd (store_scan now cursor pattern r)) r).
Proof.
  intros Hb Hm. destruct (store_exists now k r) eqn:He.
  - unfold dead, store_delete.
    by rewrite lookup_foldr_delete by by apply scan_returns.
  - eapply dead_weaken; [apply store_delete_subseteq|].
    by apply not_exists_dead.
Qed.

(** With one unit of budget per bucket still to visit, the loop ends,
    touches only the keyspace, only removes keys, and leaves every matching
    key of the buckets it visited dead. *)
Lemma scan_and_delete_spec (budget : nat) (now : Z) (pattern : string) :
  forall (cursor : nat) (w : world),
    (cursor <= table_mask)%nat ->
    (S table_mask <= budget + cursor)%nat ->
    exists w',
      scan_and_delete budget now pattern cursor w = (Return tt, w') /\
      db w' = db w /\
      redis w' ⊆ redis w /\
      forall k, glob_match pattern k = true ->
                (cursor <= bucket k)%nat ->
                dead now k (redis w').
Proof.
  induction budget as [|budget IH]; intros cursor w Hc Hb; [lia|].
  cbn [scan_and_delete]. unfold bind at 1. unfold redis_scan.
  pose proof (fun k => scan_bucket_dead now cursor pattern k (redis w))
    as Hdead.
  destruct (store_scan now cursor pattern (redis w)) as [cursor' keys] eqn:Hs.
  assert (Hnext : cursor' = if Nat.ltb (S cursor) (S table_mask)
                            then S cursor else O).
  { unfold store_scan in Hs. by injection Hs as <- _. }
  simpl in Hdead.
  set (w1 := match keys with
             | [] => w
             | _ => write_redis (store_delete keys (redis w)) w
             end).
  assert (Hw1 : db w1 = db w /\ redis w1 = store_delete keys (redis w)).
  { unfold w1. by destruct keys. }
  destruct Hw1 as [Hdb1 Hr1].
  assert (Hstep : bind (match keys with
                        | [] => ret tt
                        | _ => redis_delete keys
                        end)
                    (fun _ => if Nat.eqb cursor' 0 then ret tt
                              else scan_and_delete budget now pattern cursor') w
                  = (if Nat.eqb cursor' 0 then ret tt
                     else scan_and_delete budget now pattern cursor') w1).
  { unfold w1, bind. by destruct keys. }
  rewrite Hstep. clear Hstep.
  destruct (Nat.ltb (S cursor) (S table_mask)) eqn:Hlt; subst cursor'.
  - apply Nat.ltb_lt in Hlt. simpl.
    destruct (IH (S cursor) w1) as (w' & Hrun & Hdb & Hsub & Hall);
      [lia|lia|].
    exists w'. split; [done|]. split; [congruence|].
    assert (Hsub' : redis w' ⊆ redis w).
    { etrans; [exact Hsub|]. rewrite Hr1. apply store_delete_subseteq. }
    split; [done|]. intros k Hm Hk.
    destruct (decide (bucket k = cursor)) as [Heq|Hne].
    + eapply dead_weaken; [exact Hsub|]. rewrite Hr1. by apply Hdead.
    + apply Hall; [done|lia].
  - apply Nat.ltb_ge in Hlt. simpl. exists w1.
    split; [done|]. split; [done|]. rewrite Hr1.
    split; [apply store_delete_subseteq|]. intros k Hm Hk.
    apply Hdead; [|done]. pose proof (bucket_bound k). lia.
Qed.

Lemma revoke_all_spec (now : Z) (user_id : string) (w : world) :
  glob_plain user_id = true ->
  exists w',
    _revoke_all_refresh_tokens now user_id w = (Return tt, w') /\
    db w' = db w /\
    redis w' ⊆ redis w /\
    forall token now', now <= now' ->
      store_exists now' (refresh_key user_id token) (redis w') = false.
Proof.
  intros Hplain. unfold _revoke_all_refresh_tokens.
  destruct (scan_and_delete_spec (S table_mask) now
              ("refresh_token:" +:+ user_id +:+ ":*") 0%nat w)
    as (w' & Hrun & Hdb & Hsub & Hall); [lia|lia|].
  exists w'. repeat split; try done.
  intros token now' Hle. eapply dead_exists; [|exact Hle].
  apply Hall; [by apply revoke_pattern_matches|lia].
Qed.


(** ** What a successful refresh does to the keyspace *)

Lemma intermediate_states_two_writes (r1 r2 : store) (w : world) :
  intermediate_states w (write_redis r2 (write_redis r1 w)) = [r1].
Proof.
  unfold intermediate_states. simpl.
  by replace (S (S (length (history w))) - length (history w))%nat
    with 2%nat by lia.
Qed.

Lemma refresh_inv (now : Z) (refresh_token a n : string) (w w' : world) :
  refresh_access_token now refresh_token w = (Return (a, n), w') ->
  exists payload sub,
    jws_payload refresh_token = Some payload /\
    dict_get "sub" payload = Some sub /\
    py_truthy (Some sub) = true /\
    store_exists now (refresh_key (py_format sub) refresh_token) (redis w)
    = true /\
    w' = write_redis
           (store_setex now (refresh_key (py_format sub) n) (7 * 24 * 3600)
              "1"
              (store_delete [refresh_key (py_format sub) refresh_token]
                 (redis w)))
           (write_redis
              (store_delete [refresh_key (py_format sub) refresh_token]
                 (redis w)) w).
Proof.
  apply refresh_cases.
  - by intros e [=].
  - intros payload sub new_access new_refresh Hp Hsub Htruthy Hlive
      [= _ <- <-].
    eauto 7.
Qed.

(** Where the re-issued token is a new string, the presented one is refused
    from then on: it has no allow-record in the state the refresh leaves. *)
Lemma rotated_token_is_rejected (now later : Z) (refresh_token a n : string)
    (w w' : world) :
  refresh_access_token now refresh_token w = (Return (a, n), w') ->
  n <> refresh_token ->
  (forall a' n' w'',
     refresh_access_token later refresh_token w' <> (Return (a', n'), w'')) /\
  (forall payload,
     decode_token refresh_token "refresh" later = Return (Some payload) ->
     refresh_access_token later refresh_token w'
     = (Raise (HTTPException 401 "Refresh token has been revoked"), w')).
Proof.
  intros (payload & sub & Hp & Hsub & Htruthy & Hlive & ->)%refresh_inv Hne.
  assert (Hgone : store_exists later
                    (refresh_key (py_format sub) refresh_token)
                    (store_setex now (refresh_key (py_format sub) n)
                       (7 * 24 * 3600) "1"
                       (store_delete
                          [refresh_key (py_format sub) refresh_token]
                          (redis w))) = false).
  { rewrite store_exists_setex_ne.
    - apply store_exists_lookup_None, lookup_delete_eq.
    - intros Heq. by apply refresh_key_inj in Heq. }
  split.
  - intros a' n' w'' Hrun.
    apply refresh_inv in Hrun
      as (payload' & sub' & Hp' & Hsub' & _ & Hlive' & _).
    rewrite Hp in Hp'. injection Hp' as <-.
    rewrite Hsub in Hsub'. injection Hsub' as <-.
    cbn [redis write_redis] in Hlive'. by rewrite Hgone in Hlive'.
  - intros payload' Hdec.
    pose proof (decode_token_payload _ _ _ _ Hdec) as Hp'.
    rewrite Hp in Hp'. injection Hp' as <-.
    by eapply refresh_of_revoked_token.
Qed.

(** C1, as the code has it. A successful refresh first deletes the
    allow-record of the presented token and only then registers the one of
    the new token: the keyspace it passes through in between holds no
    allow-record for the presented token, and at the end the new token is
    registered and the presented one, when it is a different string, is
    not. *)
Theorem refresh_revokes_before_registering (now : Z)
    (refresh_token a n : string) (w w' : world) :
  refresh_access_token now refresh_token w = (Return (a, n), w') ->
  exists user_id,
    let old_key := refresh_key user_id refresh_token in
    let new_key := refresh_key user_id n in
    let revoked := store_delete [old_key] (redis w) in
    store_exists now old_key (redis w) = true /\
    redis w' = store_setex now new_key (7 * 24 * 3600) "1" revoked /\
    history w' = redis w' :: revoked :: history w /\
    intermediate_states w w' = [revoked] /\
    store_exists now old_key revoked = false /\
    store_exists now new_key (redis w') = true /\
    (n <> refresh_token -> store_exists now old_key (redis w') = false).
Proof.
  intros (payload & sub & _ & _ & _ & Hlive & ->)%refresh_inv.
  exists (py_format sub). simpl.
  split; [done|]. split; [done|]. split; [done|]. split.
  - apply intermediate_states_two_writes.
  - split; [apply store_exists_lookup_None, lookup_delete_eq|].
    split; [by apply store_exists_setex_eq|].
    intros Hne. rewrite store_exists_setex_ne.
    + apply store_exists_lookup_None, lookup_delete_eq.
    + intros Heq. by apply refresh_key_inj in Heq.
Qed.


(** ** Rows after a commit *)

Lemma update_row_ids (u : User.t) (rows : list User.t) :
  User.id <$> update_row u rows = User.id <$> rows.
Proof.
  unfold update_row. induction rows as [|row rows IH]; simpl; [done|].
  f_equal; [|done]. unfold same_id. by case_bool_decide.
Qed.

Lemma update_row_in (u u' : User.t) (rows : list User.t) :
  u ∈ rows -> User.id u' = User.id u -> u' ∈ update_row u' rows.
Proof.
  intros Hin Hid. unfold update_row.
  apply (list_elem_of_fmap_2' _ _ u); [done|].
  unfold same_id. by rewrite bool_decide_eq_true_2.
Qed.

(** ** The successful paths *)

Lemma authenticate_user_ok (now : Z) (w : world) (u : User.t)
    (password : string) :
  NoDup (User.email <$> db w) ->
  u ∈ db w ->
  password_rejected u password = false ->
  User.is_active u = true ->
  authenticate_user now
    {| login_email := User.email u; login_password := password |} w
  = (Return (set_last_login_at u now,
             create_access_token (token_data_of u) None now,
             create_refresh_token (token_data_of u) now),
     write_redis
       (store_setex now
          (refresh_key (uuid_str (User.id u))
             (create_refresh_token (token_data_of u) now))
          (7 * 24 * 3600) "1" (redis w))
       (write_db (update_row (set_last_login_at u now) (db w)) w)).
Proof.
  intros Hnd Hin Hpw Hact.
  unfold authenticate_user, bind, select_where; simpl.
  rewrite (select_by_email _ _ Hnd Hin); simpl.
  by rewrite Hpw, Hact.
Qed.

Lemma decode_own_refresh (u : User.t) (t0 now : Z) :
  JoseLaws ->
  now <= t0 + REFRESH_TOKEN_EXPIRE_DAYS * 86400 ->
  decode_token (create_refresh_token (token_data_of u) t0) "refresh" now
  = Return (Some (dict_update (token_data_of u)
                    [("exp", JInt (t0 + REFRESH_TOKEN_EXPIRE_DAYS * 86400));
                     ("type", JStr "refresh")])).
Proof.
  intros Hlaws Hle.
  pose proof (decode_token_signed
    (dict_update (token_data_of u)
       [("exp", JInt (t0 + REFRESH_TOKEN_EXPIRE_DAYS * 86400));
        ("type", JStr "refresh")])
    "refresh" _ now Hlaws
    (stamped_NoDup _ _ _ (token_data_NoDup u))
    (issued_form_own _ _ _)
    (stamped_exp _ _ _) (stamped_type _ _ _)) as Hdec.
  apply Z.ltb_ge in Hle. rewrite Hle in Hdec. exact Hdec.
Qed.

Lemma refresh_access_token_ok (now : Z) (refresh_token s : string)
    (payload : dict) (w : world) (u : User.t) :
  decode_token refresh_token "refresh" now = Return (Some payload) ->
  dict_get "sub" payload = Some (JStr s) ->
  s <> "" ->
  store_exists now (refresh_key s refresh_token) (redis w) = true ->
  UUID s = Some (User.id u) ->
  NoDup (User.id <$> db w) ->
  u ∈ db w ->
  User.is_active u = true ->
  refresh_access_token now refresh_token w
  = (Return (create_access_token (token_data_of u) None now,
             create_refresh_token (token_data_of u) now),
     write_redis
       (store_setex now
          (refresh_key s (create_refresh_token (token_data_of u) now))
          (7 * 24 * 3600) "1"
          (store_delete [refresh_key s refresh_token] (redis w)))
       (write_redis (store_delete [refresh_key s refresh_token] (redis w)) w)).
Proof.
  intros Hdec Hsub Hs Hlive Huuid Hnd Hin Hact. run_refresh.
  rewrite Hdec. destruct payload as [|kv payload]; [done|].
  rewrite Hsub. simpl. apply String.eqb_neq in Hs as ->. simpl.
  rewrite Hlive, Huuid. simpl.
  rewrite (select_by_id _ _ Hnd Hin). by rewrite Hact.
Qed.

(** A refresh of a token this code issued to [u], presented while its
    allow-record is live and before its expiry. *)
Lemma refresh_own_token (t0 now : Z) (w : world) (u : User.t) :
  JoseLaws -> UuidLaws ->
  now <= t0 + REFRESH_TOKEN_EXPIRE_DAYS * 86400 ->
  store_exists now
    (refresh_key (uuid_str (User.id u))
       (create_refresh_token (token_data_of u) t0)) (redis w) = true ->
  NoDup (User.id <$> db w) ->
  u ∈ db w ->
  User.is_active u = true ->
  refresh_access_token now (create_refresh_token (token_data_of u) t0) w
  = (Return (create_access_token (token_data_of u) None now,
             create_refresh_token (token_data_of u) now),
     write_redis
       (store_setex now
          (refresh_key (uuid_str (User.id u))
             (create_refresh_token (token_data_of u) now))
          (7 * 24 * 3600) "1"
          (store_delete
             [refresh_key (uuid_str (User.id u))
                (create_refresh_token (token_data_of u) t0)] (redis w)))
       (write_redis
          (store_delete
             [refresh_key (uuid_str (User.id u))
                (create_refresh_token (token_data_of u) t0)] (redis w)) w)).
Proof.
  intros Hjose Huuid Hle Hlive Hnd Hin Hact.
  eapply refresh_access_token_ok; try done.
  - by apply decode_own_refresh.
  - done.
  - apply uuid_str_nonempty.
  - apply UUID_str.
Qed.


(** C3, where the code departs from it. A token carries no unique
    identifier: a refresh in the second in which the presented token was
    issued signs the same claims again, so the "new" refresh token is the
    presented one, the store step registers again the record the revoke
    step deleted, and the token is accepted by a later refresh. *)
Theorem rotation_in_the_issuing_second_keeps_the_token (now later : Z)
    (w : world) (u : User.t) (password : string) :
  JoseLaws -> UuidLaws ->
  NoDup (User.email <$> db w) ->
  NoDup (User.id <$> db w) ->
  u ∈ db w ->
  password_rejected u password = false ->
  User.is_active u = true ->
  now <= later < now + 7 * 24 * 3600 ->
  later <= now + REFRESH_TOKEN_EXPIRE_DAYS * 86400 ->
  exists u1 a rt w1 w2 a3 rt3 w3,
    authenticate_user now
      {| login_email := User.email u; login_password := password |} w
    = (Return (u1, a, rt), w1) /\
    refresh_access_token now rt w1 = (Return (a, rt), w2) /\
    store_exists later (refresh_key (uuid_str (User.id u)) rt) (redis w2)
    = true /\
    refresh_access_token later rt w2 = (Return (a3, rt3), w3).
Proof.
  intros Hjose Huuid Hemails Hids Hin Hpw Hact Hlater Hexp.
  set (u1 := set_last_login_at u now).
  do 5 eexists. exists (create_access_token (token_data_of u1) None later).
  exists (create_refresh_token (token_data_of u1) later). eexists.
  split; [by apply authenticate_user_ok|].
  assert (Hids1 : NoDup (User.id <$> update_row u1 (db w)))
    by by rewrite update_row_ids.
  assert (Hin1 : u1 ∈ update_row u1 (db w)) by by eapply update_row_in.
  split; [|split].
  - apply (refresh_own_token now now _ u1); try done.
    + lia.
    + simpl. apply store_exists_setex_eq. lia.
  - simpl. apply store_exists_setex_live. lia.
  - apply (refresh_own_token now later _ u1); try done.
    simpl. apply store_exists_setex_live. lia.
Qed.

(** C8, where the code departs from it. The allow-record is registered for
    seven days whatever [REFRESH_TOKEN_EXPIRE_DAYS] is, while the expiry
    embedded in the token follows the setting: the two differ for every
    setting other than seven days. *)
Theorem refresh_record_lifetime_is_fixed (now : Z) (w : world) (u : User.t)
    (password : string) :
  JoseLaws ->
  NoDup (User.email <$> db w) ->
  u ∈ db w ->
  password_rejected u password = false ->
  User.is_active u = true ->
  exists u1 a rt w1 payload,
    authenticate_user now
      {| login_email := User.email u; login_password := password |} w
    = (Return (u1, a, rt), w1) /\
    redis w1 !! refresh_key (uuid_str (User.id u)) rt
    = Some {| value := "1"; deadline := now + 604800 |} /\
    jws_payload rt = Some payload /\
    dict_get "exp" payload
    = Some (JInt (now + REFRESH_TOKEN_EXPIRE_DAYS * 86400)) /\
    (REFRESH_TOKEN_EXPIRE_DAYS <> 7 ->
     now + 604800 <> now + REFRESH_TOKEN_EXPIRE_DAYS * 86400).
Proof.
  intros Hjose Hemails Hin Hpw Hact. do 5 eexists.
  split; [by apply authenticate_user_ok|].
  split; [simpl; apply lookup_insert_eq|].
  split.
  - unfold create_refresh_token, jwt_encode. apply jws_payload_sign.
    apply stamped_NoDup, token_data_NoDup.
  - split; [apply stamped_exp|]. lia.
Qed.

(** ** Password change and reset *)

Lemma change_password_ok (w : world) (u : User.t)
    (current_password new_password salt : string) :
  NoDup (User.id <$> db w) ->
  u ∈ db w ->
  password_rejected u current_password = false ->
  change_password (User.id u) current_password new_password salt w
  = (Return (set_password_hash u (hash_password new_password salt)),
     write_db
       (update_row (set_password_hash u (hash_password new_password salt))
          (db w)) w).
Proof.
  intros Hnd Hin Hpw. unfold change_password, bind, select_where; simpl.
  rewrite (select_by_id _ _ Hnd Hin); simpl.
  by rewrite Hpw.
Qed.

(** C2, where the code departs from it. [change_password] never touches the
    keyspace: a refresh token issued before the change is exchanged for a
    new pair after it. *)
Theorem change_password_keeps_refresh_tokens (now later : Z) (w : world)
    (u : User.t) (password new_password salt : string) :
  JoseLaws -> UuidLaws ->
  NoDup (User.email <$> db w) ->
  NoDup (User.id <$> db w) ->
  u ∈ db w ->
  password_rejected u password = false ->
  User.is_active u = true ->
  now <= later < now + 7 * 24 * 3600 ->
  later <= now + REFRESH_TOKEN_EXPIRE_DAYS * 86400 ->
  exists u1 a rt w1 u2 w2 a3 rt3 w3,
    authenticate_user now
      {| login_email := User.email u; login_password := password |} w
    = (Return (u1, a, rt), w1) /\
    change_password (User.id u) password new_password salt w1
    = (Return u2, w2) /\
    redis w2 = redis w1 /\
    history w2 = history w1 /\
    refresh_access_token later rt w2 = (Return (a3, rt3), w3).
Proof.
  intros Hjose Huuid Hemails Hids Hin Hpw Hact Hlater Hexp.
  set (u1 := set_last_login_at u now).
  set (u2 := set_password_hash u1 (hash_password new_password salt)).
  do 6 eexists. exists (create_access_token (token_data_of u2) None later).
  exists (create_refresh_token (token_data_of u2) later). eexists.
  split; [by apply authenticate_user_ok|].
  assert (Hids1 : NoDup (User.id <$> update_row u1 (db w)))
    by by rewrite update_row_ids.
  assert (Hin1 : u1 ∈ update_row u1 (db w)) by by eapply update_row_in.
  split.
  { change (User.id u) with (User.id u1).
    by apply (change_password_ok _ u1). }
  split; [reflexivity|]. split; [reflexivity|].
  apply (refresh_own_token now later _ u2); try done.
  - simpl. apply store_exists_setex_live. lia.
  - simpl. by rewrite update_row_ids.
  - simpl. by eapply update_row_in.
Qed.

Lemma reset_password_ok (now : Z) (token new_password salt : string)
    (w : world) (u : User.t) :
  UuidLaws ->
  NoDup (User.id <$> db w) ->
  u ∈ db w ->
  store_get now ("password_reset:" +:+ token) (redis w)
  = Some (uuid_str (User.id u)) ->
  exists w',
    reset_password now token new_password salt w
    = (Return (set_password_hash u (hash_password new_password salt)), w') /\
    db w'
    = update_row (set_password_hash u (hash_password new_password salt))
        (db w) /\
    redis w' ⊆ delete ("password_reset:" +:+ token) (redis w) /\
    forall refresh_token now', now <= now' ->
      store_exists now' (refresh_key (uuid_str (User.id u)) refresh_token)
        (redis w') = false.
Proof.
  intros Huuid Hnd Hin Hget.
  unfold reset_password, bind at 1, redis_get. rewrite Hget.
  pose proof (uuid_str_nonempty (User.id u)) as Hne.
  apply String.eqb_neq in Hne as ->.
  unfold bind at 1, UUID_or_raise. rewrite UUID_str.
  unfold ret at 1, bind at 1, select_where.
  rewrite (select_by_id _ _ Hnd Hin).
  unfold bind at 1, scalar_one_or_none, ret at 1.
  unfold bind at 1, commit. unfold bind at 1, redis_delete.
  set (u' := set_password_hash u (hash_password new_password salt)).
  set (w1 := write_redis _ _).
  destruct (revoke_all_spec now (uuid_str (User.id u')) w1)
    as (w' & Hrun & Hdb & Hsub & Hall); [apply uuid_str_plain|].
  unfold bind. rewrite Hrun. exists w'.
  split; [done|]. split; [by rewrite Hdb|]. split; [|done].
  etrans; [exact Hsub|]. done.
Qed.

(** The sibling path: after a successful [reset_password] no refresh token
    of the principal has an allow-record. *)
Lemma reset_password_revokes_all (now : Z) (token new_password salt : string)
    (w : world) (u : User.t) :
  UuidLaws ->
  NoDup (User.id <$> db w) ->
  u ∈ db w ->
  store_get now ("password_reset:" +:+ token) (redis w)
  = Some (uuid_str (User.id u)) ->
  exists u' w',
    reset_password now token new_password salt w = (Return u', w') /\
    forall refresh_token now', now <= now' ->
      store_exists now' (refresh_key (uuid_str (User.id u)) refresh_token)
        (redis w') = false.
Proof.
  intros Huuid Hnd Hin Hget.
  destruct (reset_password_ok now token new_password salt w u)
    as (w' & Hrun & _ & _ & Hall); try done.
  eauto.
Qed.


(** ** One-time tokens *)

Lemma store_get_lookup_None (now : Z) (k : string) (r : store) :
  r !! k = None -> store_get now k r = None.
Proof. intros Hk. unfold store_get. by rewrite Hk. Qed.

Lemma verify_email_ok (now : Z) (token : string) (w : world) (u : User.t) :
  UuidLaws ->
  NoDup (User.id <$> db w) ->
  u ∈ db w ->
  store_get now ("email_verification:" +:+ token) (redis w)
  = Some (uuid_str (User.id u)) ->
  verify_email now token w
  = (Return (set_email_verified_at u now),
     write_redis
       (store_delete ["email_verification:" +:+ token] (redis w))
       (write_db (update_row (set_email_verified_at u now) (db w)) w)).
Proof.
  intros Huuid Hnd Hin Hget.
  unfold verify_email, bind at 1, redis_get. rewrite Hget.
  pose proof (uuid_str_nonempty (User.id u)) as Hne.
  apply String.eqb_neq in Hne as ->.
  unfold bind at 1, UUID_or_raise. rewrite UUID_str.
  unfold ret at 1, bind at 1, select_where.
  by rewrite (select_by_id _ _ Hnd Hin).
Qed.

Lemma reset_password_not_found (now : Z) (token new_password salt : string)
    (w : world) :
  store_get now ("password_reset:" +:+ token) (redis w) = None ->
  reset_password now token new_password salt w
  = (Raise (HTTPException 400 "Invalid or expired reset token"), w).
Proof.
  intros Hget. unfold reset_password, bind, redis_get. by rewrite Hget.
Qed.

Lemma verify_email_not_found (now : Z) (token : string) (w : world) :
  store_get now ("email_verification:" +:+ token) (redis w) = None ->
  verify_email now token w
  = (Raise (HTTPException 400 "Invalid or expired verification token"), w).
Proof.
  intros Hget. unfold verify_email, bind, redis_get. by rewrite Hget.
Qed.

(** C7. A one-time token is redeemed once: after the mint has stored
    [purpose:token -> subject], the first redemption within the token's
    lifetime returns that subject and deletes the mapping, and a second
    redemption is refused as invalid or expired, for password reset and for
    email verification alike. *)
Theorem one_time_tokens_are_single_use (t0 t1 t2 : Z) (w : world)
    (u : User.t) (token password salt password' salt' : string) :
  UuidLaws ->
  NoDup (User.email <$> db w) ->
  NoDup (User.id <$> db w) ->
  u ∈ db w ->
  (t1 < t0 + 3600 ->
   exists w1 u1 w2,
     create_password_reset_token t0 (User.email u) token w
     = (Return token, w1) /\
     redis w1 !! ("password_reset:" +:+ token)
     = Some {| value := uuid_str (User.id u); deadline := t0 + 3600 |} /\
     reset_password t1 token password salt w1 = (Return u1, w2) /\
     User.id u1 = User.id u /\
     redis w2 !! ("password_reset:" +:+ token) = None /\
     reset_password t2 token password' salt' w2
     = (Raise (HTTPException 400 "Invalid or expired reset token"), w2)) /\
  (t1 < t0 + 86400 ->
   exists w1 u1 w2,
     create_verification_token t0 (User.id u) token w = (Return token, w1) /\
     redis w1 !! ("email_verification:" +:+ token)
     = Some {| value := uuid_str (User.id u); deadline := t0 + 86400 |} /\
     verify_email t1 token w1 = (Return u1, w2) /\
     User.id u1 = User.id u /\
     redis w2 !! ("email_verification:" +:+ token) = None /\
     verify_email t2 token w2
     = (Raise (HTTPException 400 "Invalid or expired verification token"),
        w2)).
Proof.
  intros Huuid Hemails Hids Hin. split; intros Ht1.
  - set (w1 := write_redis
                 (store_setex t0 ("password_reset:" +:+ token) 3600
                    (uuid_str (User.id u)) (redis w)) w).
    assert (Hmint : create_password_reset_token t0 (User.email u) token w
                    = (Return token, w1)).
    { unfold create_password_reset_token, bind, select_where; simpl.
      by rewrite (select_by_email _ _ Hemails Hin). }
    destruct (reset_password_ok t1 token password salt w1 u)
      as (w2 & Hrun & _ & Hsub & _); try done.
    { simpl. by apply store_get_setex_eq. }
    assert (Hgone : redis w2 !! ("password_reset:" +:+ token) = None).
    { eapply lookup_weaken_None; [apply lookup_delete_eq|exact Hsub]. }
    exists w1. eexists. exists w2.
    split; [done|]. split; [simpl; apply lookup_insert_eq|].
    split; [exact Hrun|]. split; [done|]. split; [done|].
    by apply reset_password_not_found, store_get_lookup_None.
  - set (w1 := write_redis
                 (store_setex t0 ("email_verification:" +:+ token) 86400
                    (uuid_str (User.id u)) (redis w)) w).
    exists w1. eexists. eexists.
    split; [done|]. split; [simpl; apply lookup_insert_eq|].
    split; [apply verify_email_ok; try done|].
    { simpl. by apply store_get_setex_eq. }
    split; [done|]. split; [simpl; apply lookup_delete_eq|].
    apply verify_email_not_found, store_get_lookup_None.
    simpl. apply lookup_delete_eq.
Qed.

(** * Further properties *)

(** ** The request dependencies *)

Ltac run_current_user :=
  unfold get_current_user, bind, lift, select_where, UUID_of,
    scalar_one_or_none, ret, raise.

Lemma filter_singleton_elem {A} (p : A -> bool) (l : list A) (u : A) :
  List.filter p l = [u] -> u ∈ l /\ p u = true.
Proof.
  intros Hf. assert (Hin : In u (List.filter p l)) by (rewrite Hf; by left).
  apply filter_In in Hin as [Hin Hp]. by rewrite list_elem_of_In.
Qed.

(** The two ways [get_current_user] ends, neither of which writes. *)
Lemma get_current_user_cases (now : Z) (token : string) (w : world)
    (P : outcome User.t * world -> Prop) :
  (forall e, P (Raise e, w)) ->
  (forall payload s u,
     decode_token token "access" now = Return (Some payload) ->
     dict_get "sub" payload = Some (JStr s) ->
     UUID s = Some (User.id u) ->
     u ∈ db w ->
     User.is_active u = true ->
     P (Return u, w)) ->
  P (get_current_user now token w).
Proof.
  intros Hraise Hreturn. run_current_user.
  remember (decode_token token "access" now) as d eqn:Hdec in |- *.
  symmetry in Hdec.
  destruct d as [[payload|]|e0]; [|apply Hraise..].
  destruct payload as [|kv payload]; [apply Hraise|].
  revert Hdec. generalize (kv :: payload). clear kv payload.
  intros payload Hdec.
  destruct (dict_get "sub" payload) as [sub|] eqn:Hsub; [|apply Hraise].
  destruct (py_truthy (Some sub)); cbn [negb]; [|apply Hraise].
  revert Hsub. destruct sub as [s|z|]; [|intros; apply Hraise..].
  intros Hsub.
  destruct (UUID s) as [uid|] eqn:Huuid; [|apply Hraise].
  destruct (List.filter (fun u => bool_decide (User.id u = uid)) (db w))
    as [|u [|u' rows]] eqn:Hrows; [apply Hraise| |apply Hraise].
  apply filter_singleton_elem in Hrows as [Hin Hid].
  apply bool_decide_eq_true in Hid. subst uid.
  destruct (User.is_active u) eqn:Hact; cbn [negb]; [|apply Hraise].
  by eapply Hreturn.
Qed.

Lemma get_current_user_ok (now : Z) (token s : string) (payload : dict)
    (w : world) (u : User.t) :
  decode_token token "access" now = Return (Some payload) ->
  dict_get "sub" payload = Some (JStr s) ->
  s <> "" ->
  UUID s = Some (User.id u) ->
  NoDup (User.id <$> db w) ->
  u ∈ db w ->
  get_current_user now token w
  = (if User.is_active u then Return u
     else Raise (HTTPException 403 "User account is inactive"), w).
Proof.
  intros Hdec Hsub Hs Huuid Hnd Hin. run_current_user.
  rewrite Hdec. destruct payload as [|kv payload]; [done|].
  rewrite Hsub. simpl. apply String.eqb_neq in Hs as ->. simpl.
  rewrite Huuid. simpl. rewrite (select_by_id _ _ Hnd Hin).
  by destruct (User.is_active u).
Qed.

Lemma decode_own_access (u : User.t) (t0 now : Z) :
  JoseLaws ->
  decode_token (create_access_token (token_data_of u) None t0) "access" now
  = Return (if Z.ltb (t0 + ACCESS_TOKEN_EXPIRE_MINUTES * 60) now then None
            else Some (dict_update (token_data_of u)
                         [("exp", JInt (t0 + ACCESS_TOKEN_EXPIRE_MINUTES * 60));
                          ("type", JStr "access")])).
Proof.
  intros Hlaws.
  exact (decode_token_signed
    (dict_update (token_data_of u)
       [("exp", JInt (t0 + ACCESS_TOKEN_EXPIRE_MINUTES * 60));
        ("type", JStr "access")])
    "access" _ now Hlaws
    (stamped_NoDup _ _ _ (token_data_NoDup u))
    (issued_form_own _ _ _)
    (stamped_exp _ _ _) (stamped_type _ _ _)).
Qed.

(** The access token this code issued to [u], presented at [now]. *)
Lemma get_current_user_own_token (t0 now : Z) (w : world) (u : User.t) :
  JoseLaws -> UuidLaws ->
  NoDup (User.id <$> db w) ->
  u ∈ db w ->
  get_current_user now (create_access_token (token_data_of u) None t0) w
  = (if Z.ltb (t0 + ACCESS_TOKEN_EXPIRE_MINUTES * 60) now
     then Raise (HTTPException 401 "Could not validate credentials")
     else if User.is_active u then Return u
     else Raise (HTTPException 403 "User account is inactive"), w).
Proof.
  intros Hjose Huuid Hnd Hin.
  pose proof (decode_own_access u t0 now Hjose) as Hdec.
  destruct (Z.ltb (t0 + ACCESS_TOKEN_EXPIRE_MINUTES * 60) now).
  - run_current_user. by rewrite Hdec.
  - eapply get_current_user_ok; try done.
    + apply uuid_str_nonempty.
    + apply UUID_str.
Qed.

(** X1. [get_current_user] never writes, and it returns a user only for a
    token that [decode_token] accepts as an access token at that time and
    whose subject is the id of an active row; the further check of
    [get_current_active_user] then always passes. *)
Theorem get_current_user_sound (now : Z) (token : string) (w : world) :
  snd (get_current_user now token w) = w /\
  forall u,
    fst (get_current_user now token w) = Return u ->
    u ∈ db w /\
    User.is_active u = true /\
    (exists payload s,
       decode_token token "access" now = Return (Some payload) /\
       dict_get "sub" payload = Some (JStr s) /\
       UUID s = Some (User.id u)) /\
    depends_current_active_user now token w = (Return u, w).
Proof.
  unfold depends_current_active_user, bind.
  apply get_current_user_cases.
  - intros e. split; [done|]. by intros u [=].
  - intros payload s u Hdec Hsub Huuid Hin Hact. split; [done|].
    intros u' [= <-]. split; [done|]. split; [done|].
    split; [by eauto|]. unfold get_current_active_user. by rewrite Hact.
Qed.

(** X2. [get_optional_user] accepts exactly what [get_current_user]
    accepts: it returns the same user where that one returns, [None] where
    that one raises (whatever it raises) and where there are no
    credentials, and it never raises or writes. *)
Theorem get_optional_user_agrees (now : Z) (token : string) (w : world) :
  get_optional_user now (Some token) w
  = (Return match fst (get_current_user now token w) with
            | Return u => Some u
            | Raise _ => None
            end, w) /\
  get_optional_user now None w = (Return None, w).
Proof.
  split; [|done].
  unfold get_optional_user, try_except. run_current_user.
  destruct (decode_token token "access" now) as [[payload|]|e0]; try done.
  destruct payload as [|kv payload]; [done|].
  generalize (kv :: payload). clear kv payload. intros payload.
  destruct (dict_get "sub" payload) as [sub|]; [|done].
  destruct (py_truthy (Some sub)); cbn [negb]; [|done].
  destruct sub as [s|z|]; try done.
  destruct (UUID s) as [uid|]; [|done].
  destruct (List.filter (fun u => bool_decide (User.id u = uid)) (db w))
    as [|u [|u' rows]]; try done.
  by destruct (User.is_active u).
Qed.

(** X3. After a login, the access token it returned authenticates the
    user on every request up to the token's expiry, and is refused with 401
    after it. *)
Theorem login_then_authenticated (now later : Z) (w : world) (u : User.t)
    (password : string) :
  JoseLaws -> UuidLaws ->
  NoDup (User.email <$> db w) ->
  NoDup (User.id <$> db w) ->
  u ∈ db w ->
  password_rejected u password = false ->
  User.is_active u = true ->
  exists u1 a rt w1,
    authenticate_user now
      {| login_email := User.email u; login_password := password |} w
    = (Return (u1, a, rt), w1) /\
    (later <= now + ACCESS_TOKEN_EXPIRE_MINUTES * 60 ->
     depends_current_active_user later a w1 = (Return u1, w1)) /\
    (now + ACCESS_TOKEN_EXPIRE_MINUTES * 60 < later ->
     get_current_user later a w1
     = (Raise (HTTPException 401 "Could not validate credentials"), w1)).
Proof.
  intros Hjose Huuid Hemails Hids Hin Hpw Hact.
  set (u1 := set_last_login_at u now).
  do 4 eexists. split; [by apply authenticate_user_ok|].
  assert (Hids1 : NoDup (User.id <$> update_row u1 (db w)))
    by by rewrite update_row_ids.
  assert (Hin1 : u1 ∈ update_row u1 (db w)) by by eapply update_row_in.
  split; intros Hlater.
  - unfold depends_current_active_user, bind.
    rewrite (get_current_user_own_token now later _ u1) by done.
    apply Z.ltb_ge in Hlater. rewrite Hlater.
    change (User.is_active u1) with (User.is_active u). rewrite Hact.
    unfold get_current_active_user.
    change (User.is_active u1) with (User.is_active u). by rewrite Hact.
  - rewrite (get_current_user_own_token now later _ u1) by done.
    apply Z.ltb_lt in Hlater. by rewrite Hlater.
Qed.

(** X4. A token of one type is refused where the other type is expected:
    a refresh token as a bearer token, and an access token at the refresh,
    both with 401 and without any write. The token data is any that has no
    null [iat] or [nbf] claim, as all the data this code signs. *)
Theorem tokens_are_not_interchangeable (now t0 : Z) (data : dict)
    (delta : option Z) (w : world) :
  JoseLaws ->
  NoDup (fst <$> data) ->
  dict_get "iat" data <> Some JNull ->
  dict_get "nbf" data <> Some JNull ->
  get_current_user now (create_refresh_token data t0) w
  = (Raise (HTTPException 401 "Could not validate credentials"), w) /\
  get_optional_user now (Some (create_refresh_token data t0)) w
  = (Return None, w) /\
  refresh_access_token now (create_access_token data delta t0) w
  = (Raise (HTTPException 401 "Invalid refresh token"), w).
Proof.
  intros Hjose Hnd Hiat Hnbf.
  assert (Hr : decode_token (create_refresh_token data t0) "access" now
               = Return None).
  { eapply decode_token_wrong_type.
    - apply jws_payload_sign. by apply stamped_NoDup.
    - by apply validate_stamped.
    - by rewrite stamped_type. }
  assert (Ha : decode_token (create_access_token data delta t0) "refresh" now
               = Return None).
  { eapply decode_token_wrong_type.
    - apply jws_payload_sign. by apply stamped_NoDup.
    - by apply validate_stamped.
    - by rewrite stamped_type. }
  split; [|split].
  - run_current_user. by rewrite Hr.
  - unfold get_optional_user, try_except, bind, lift. by rewrite Hr.
  - run_refresh. by rewrite Ha.
Qed.

(** X5. Deactivating a user locks the user out at once: the access token
    is answered with 403, and the refresh token with 401 although it is
    unexpired and its allow-record is live; the refresh leaves the record in
    place. *)
Theorem deactivated_user_is_locked_out (t0 now : Z) (w : world) (u : User.t) :
  JoseLaws -> UuidLaws ->
  NoDup (User.id <$> db w) ->
  u ∈ db w ->
  User.is_active u = false ->
  now <= t0 + ACCESS_TOKEN_EXPIRE_MINUTES * 60 ->
  now <= t0 + REFRESH_TOKEN_EXPIRE_DAYS * 86400 ->
  store_exists now
    (refresh_key (uuid_str (User.id u))
       (create_refresh_token (token_data_of u) t0)) (redis w) = true ->
  get_current_user now (create_access_token (token_data_of u) None t0) w
  = (Raise (HTTPException 403 "User account is inactive"), w) /\
  get_optional_user now
    (Some (create_access_token (token_data_of u) None t0)) w
  = (Return None, w) /\
  refresh_access_token now (create_refresh_token (token_data_of u) t0) w
  = (Raise (HTTPException 401 "User not found or inactive"), w).
Proof.
  intros Hjose Huuid Hids Hin Hact Ha Hr Hlive.
  assert (Hcur : get_current_user now
                   (create_access_token (token_data_of u) None t0) w
                 = (Raise (HTTPException 403 "User account is inactive"), w)).
  { rewrite get_current_user_own_token by done.
    apply Z.ltb_ge in Ha. by rewrite Ha, Hact. }
  split; [exact Hcur|]. split.
  - destruct (get_optional_user_agrees now
                (create_access_token (token_data_of u) None t0) w) as [-> _].
    by rewrite Hcur.
  - run_refresh. rewrite (decode_own_refresh u t0 now Hjose Hr).
    cbn [dict_update fold_left fst snd token_data_of dict_set dict_get
         String.eqb Ascii.eqb Bool.eqb].
    pose proof (uuid_str_nonempty (User.id u)) as Hne.
    apply String.eqb_neq in Hne. cbn [py_truthy py_format]. rewrite Hne.
    cbn [negb]. rewrite Hlive. cbn [negb]. rewrite UUID_str.
    rewrite (select_by_id _ _ Hids Hin). by rewrite Hact.
Qed.

(** X6. The role check follows the order super_admin > admin > user: it
    either returns the user or raises 403 naming the required role, [USER]
    is required of nobody in vain, a super_admin passes every requirement,
    [ADMIN] lets through exactly the admins and super_admins and
    [SUPER_ADMIN] exactly the super_admins, and whoever passes a requirement
    passes every requirement that a holder of that very role passes. *)
Theorem require_role_hierarchy (required : UserRole) (u : User.t)
    (w : world) :
  (require_role required u w = (Return u, w) \/
   require_role required u w
   = (Raise (HTTPException 403
               ("Insufficient permissions. Required role: "
                +:+ UserRole_value required)), w)) /\
  require_role USER u w = (Return u, w) /\
  (User.role u = SUPER_ADMIN -> require_role required u w = (Return u, w)) /\
  (require_role ADMIN u w = (Return u, w) <-> User.role u <> USER) /\
  (require_role SUPER_ADMIN u w = (Return u, w)
   <-> User.role u = SUPER_ADMIN) /\
  (forall (weaker : UserRole) (v : User.t),
     require_role required u w = (Return u, w) ->
     User.role v = required ->
     require_role weaker v w = (Return v, w) ->
     require_role weaker u w = (Return u, w)).
Proof.
  unfold require_role, ret, raise.
  split; [|split; [|split; [|split; [|split]]]].
  - destruct (Z.ltb _ _); auto.
  - by destruct (User.role u).
  - intros ->. by destruct required.
  - destruct (User.role u); simpl; split; try done; by intros [=].
  - destruct (User.role u); simpl; split; try done; by intros [=].
  - intros weaker v Hu Hv. rewrite Hv.
    destruct required, weaker, (User.role u); simpl in *; try done;
      by intros [=].
Qed.

(** X7. An endpoint behind [require_admin] is reached only with a token
    [get_current_user] accepts, by an active admin or super_admin; behind
    [require_super_admin], only by an active super_admin. Neither writes. *)
Theorem admin_guards (now : Z) (token : string) (w : world) :
  snd (require_admin now token w) = w /\
  snd (require_super_admin now token w) = w /\
  (forall u,
     fst (require_admin now token w) = Return u ->
     fst (get_current_user now token w) = Return u /\
     u ∈ db w /\ User.is_active u = true /\
     (User.role u = ADMIN \/ User.role u = SUPER_ADMIN)) /\
  (forall u,
     fst (require_super_admin now token w) = Return u ->
     fst (get_current_user now token w) = Return u /\
     u ∈ db w /\ User.is_active u = true /\
     User.role u = SUPER_ADMIN).
Proof.
  unfold require_admin, require_super_admin, depends_current_active_user,
    bind.
  apply get_current_user_cases.
  - intros e. split; [done|]. split; [done|]. split; by intros u [=].
  - intros payload s u _ _ _ Hin Hact.
    unfold get_current_active_user. rewrite Hact. cbn [negb ret].
    unfold require_role, ret, raise.
    destruct (User.role u) eqn:Hrole; simpl;
      (split; [done|]; split; [done|];
       split; intros u' Hu'; simplify_eq/=; auto).
Qed.

(** X8. The verified-user dependency refuses a user whose email is not
    verified with 403, and after a successful [verify_email] the same access
    token passes it. *)
Theorem verification_opens_verified_endpoints (ta t0 t1 later : Z)
    (w : world) (u : User.t) (token : string) :
  JoseLaws -> UuidLaws ->
  NoDup (User.id <$> db w) ->
  u ∈ db w ->
  User.is_active u = true ->
  User.email_verified_at u = None ->
  t1 < t0 + 86400 ->
  later <= ta + ACCESS_TOKEN_EXPIRE_MINUTES * 60 ->
  let access := create_access_token (token_data_of u) None ta in
  depends_current_verified_user later access w
  = (Raise (HTTPException 403 "Email not verified"), w) /\
  exists w1 u1 w2,
    create_verification_token t0 (User.id u) token w = (Return token, w1) /\
    verify_email t1 token w1 = (Return u1, w2) /\
    User.email_verified_at u1 = Some t1 /\
    depends_current_verified_user later access w2 = (Return u1, w2).
Proof.
  intros Hjose Huuid Hids Hin Hact Hnone Ht1 Hlater access.
  apply Z.ltb_ge in Hlater.
  split.
  - unfold depends_current_verified_user, depends_current_active_user, bind.
    unfold access. rewrite get_current_user_own_token by done.
    rewrite Hlater, Hact. unfold get_current_active_user. rewrite Hact.
    cbn [negb ret]. unfold get_current_verified_user. by rewrite Hnone.
  - set (u1 := set_email_verified_at u t1).
    do 3 eexists. split; [reflexivity|].
    split; [apply verify_email_ok; try done|].
    { simpl. by apply store_get_setex_eq. }
    split; [done|].
    unfold depends_current_verified_user, depends_current_active_user, bind.
    unfold access. rewrite (get_current_user_own_token ta later _ u1);
      try done.
    + rewrite Hlater. change (User.is_active u1) with (User.is_active u).
      rewrite Hact. unfold get_current_active_user.
      change (User.is_active u1) with (User.is_active u). by rewrite Hact.
    + simpl. by rewrite update_row_ids.
    + simpl. by eapply update_row_in.
Qed.

(** ** Registration *)

Lemma register_user_ok (data : RegisterRequest) (new_id : uuid)
    (salt : string) (w : world) :
  (forall u, u ∈ db w -> User.email u <> register_email data) ->
  register_user data new_id salt w
  = (Return (User.mk new_id (register_email data)
               (Some (hash_password (register_password data) salt))
               (register_name data) USER true None None),
     write_db
       (db w ++
        [User.mk new_id (register_email data)
           (Some (hash_password (register_password data) salt))
           (register_name data) USER true None None]) w).
Proof.
  intros Hfree. unfold register_user, bind, select_where; simpl.
  rewrite filter_none; [done|].
  intros x Hx. apply String.eqb_neq. by apply Hfree.
Qed.

(** X9. Registration with an email that a row already has is refused with
    400 and writes nothing; with a new email it appends one row, an active,
    unverified [USER] holding the hash of the password, keeps every other
    row and the keyspace, and keeps emails and ids unique. *)
Theorem register_user_keeps_emails_unique (data : RegisterRequest)
    (new_id : uuid) (salt : string) (w : world) :
  NoDup (User.email <$> db w) ->
  NoDup (User.id <$> db w) ->
  new_id ∉ User.id <$> db w ->
  ((exists u, u ∈ db w /\ User.email u = register_email data) ->
   register_user data new_id salt w
   = (Raise (HTTPException 400 "Email already registered"), w)) /\
  ((forall u, u ∈ db w -> User.email u <> register_email data) ->
   exists user w',
     register_user data new_id salt w = (Return user, w') /\
     user = User.mk new_id (register_email data)
              (Some (hash_password (register_password data) salt))
              (register_name data) USER true None None /\
     db w' = (db w ++ [user])%list /\
     redis w' = redis w /\
     NoDup (User.email <$> db w') /\
     NoDup (User.id <$> db w')).
Proof.
  intros Hemails Hids Hfresh. split.
  - intros (u & Hin & Hemail).
    unfold register_user, bind, select_where; simpl.
    rewrite <- Hemail. by rewrite (select_by_email _ _ Hemails Hin).
  - intros Hfree. do 2 eexists.
    split; [by apply register_user_ok|].
    split; [done|]. split; [done|]. split; [done|]. simpl.
    rewrite !fmap_app. simpl. split.
    + apply list.NoDup_app. split; [done|]. split; [|apply NoDup_singleton].
      intros e He ->%list_elem_of_singleton.
      apply list_elem_of_fmap in He as (u & Hu & Hin).
      by apply (Hfree u Hin).
    + apply list.NoDup_app. split; [done|]. split; [|apply NoDup_singleton].
      by intros i Hi ->%list_elem_of_singleton.
Qed.

(** X10. A user who has registered logs in with the registered password,
    given that the hasher verifies the hash it produced. *)
Theorem register_then_login (now : Z) (data : RegisterRequest)
    (new_id : uuid) (salt : string) (w : world) :
  NoDup (User.email <$> db w) ->
  new_id ∉ User.id <$> db w ->
  (forall u, u ∈ db w -> User.email u <> register_email data) ->
  hash_password (register_password data) salt <> "" ->
  verify_password (register_password data)
    (hash_password (register_password data) salt) = true ->
  exists user w1 u1 a rt w2,
    register_user data new_id salt w = (Return user, w1) /\
    authenticate_user now
      {| login_email := register_email data;
         login_password := register_password data |} w1
    = (Return (u1, a, rt), w2) /\
    User.id u1 = new_id /\
    store_exists now (refresh_key (uuid_str new_id) rt) (redis w2) = true.
Proof.
  intros Hemails Hfresh Hfree Hne Hverify.
  set (user := User.mk new_id (register_email data)
                 (Some (hash_password (register_password data) salt))
                 (register_name data) USER true None None).
  do 6 eexists. split; [by apply register_user_ok|].
  split; [|split].
  - apply (authenticate_user_ok now _ user).
    + simpl. rewrite fmap_app. simpl.
      apply list.NoDup_app. split; [done|]. split; [|apply NoDup_singleton].
      intros e He ->%list_elem_of_singleton.
      apply list_elem_of_fmap in He as (u & Hu & Hin).
      by apply (Hfree u Hin).
    + simpl. apply elem_of_app. right. apply list_elem_of_here.
    + unfold password_rejected, user. simpl.
      apply String.eqb_neq in Hne as ->. by rewrite Hverify.
    + done.
  - done.
  - simpl. apply store_exists_setex_eq. lia.
Qed.

(** ** Logout *)

(** X11. [logout_user] deletes the allow-record of the presented token under
    the given user id and nothing else: every other key, and so every other
    refresh token of the user, is as before, the rows are untouched, a
    second logout changes nothing more, and a later refresh with the token
    is refused as revoked. *)
Theorem logout_revokes_the_presented_token (later : Z)
    (user_id refresh_token : string) (w : world) :
  exists w',
    logout_user user_id refresh_token w = (Return tt, w') /\
    db w' = db w /\
    store_exists later (refresh_key user_id refresh_token) (redis w') = false /\
    (forall k, k <> refresh_key user_id refresh_token ->
               redis w' !! k = redis w !! k) /\
    (forall other, other <> refresh_token ->
       store_exists later (refresh_key user_id other) (redis w')
       = store_exists later (refresh_key user_id other) (redis w)) /\
    redis (snd (logout_user user_id refresh_token w')) = redis w' /\
    (forall payload,
       decode_token refresh_token "refresh" later = Return (Some payload) ->
       dict_get "sub" payload = Some (JStr user_id) ->
       user_id <> "" ->
       refresh_access_token later refresh_token w'
       = (Raise (HTTPException 401 "Refresh token has been revoked"), w')).
Proof.
  eexists. split; [reflexivity|]. split; [done|].
  assert (Hgone : store_exists later (refresh_key user_id refresh_token)
                    (store_delete [refresh_key user_id refresh_token]
                       (redis w)) = false)
    by apply store_exists_delete_eq.
  split; [exact Hgone|]. split; [|split; [|split]].
  - intros k Hk. simpl. by rewrite lookup_delete_ne.
  - intros other Hother. simpl. apply store_exists_delete_ne.
    intros Heq. by apply refresh_key_inj in Heq.
  - simpl. apply delete_id, lookup_delete_eq.
  - intros payload Hdec Hsub Hne.
    eapply refresh_of_revoked_token; [exact Hdec|exact Hsub| |exact Hgone].
    simpl. by apply String.eqb_neq in Hne as ->.
Qed.

(** ** Login failures *)

(** X12. A login that fails writes nothing; an unknown email is answered
    exactly like a wrong password, with 401, and an inactive account with
    the right password with 403. *)
Theorem login_failures (now : Z) (w : world) (password : string) :
  NoDup (User.email <$> db w) ->
  (forall data e w', authenticate_user now data w = (Raise e, w') -> w' = w) /\
  (forall email,
     (forall u, u ∈ db w -> User.email u <> email) ->
     authenticate_user now
       {| login_email := email; login_password := password |} w
     = (Raise (HTTPException 401 "Incorrect email or password"), w)) /\
  (forall u,
     u ∈ db w ->
     password_rejected u password = true ->
     authenticate_user now
       {| login_email := User.email u; login_password := password |} w
     = (Raise (HTTPException 401 "Incorrect email or password"), w)) /\
  (forall u,
     u ∈ db w ->
     password_rejected u password = false ->
     User.is_active u = false ->
     authenticate_user now
       {| login_email := User.email u; login_password := password |} w
     = (Raise (HTTPException 403 "User account is inactive"), w)).
Proof.
  intros Hnd. split; [|split; [|split]].
  - intros data e w'.
    unfold authenticate_user, bind, select_where, scalar_one_or_none, ret,
      raise.
    destruct (List.filter _ (db w)) as [|u [|u' rows]];
      try (by intros [= _ <-]).
    destruct (password_rejected u (login_password data));
      [by intros [= _ <-]|].
    destruct (User.is_active u); cbn [negb]; [|by intros [= _ <-]].
    by intros [=].
  - intros email Hnone.
    unfold authenticate_user, bind, select_where; simpl.
    rewrite filter_none; [done|].
    intros x Hx. apply String.eqb_neq. by apply Hnone.
  - intros u Hin Hbad.
    unfold authenticate_user, bind, select_where; simpl.
    rewrite (select_by_email _ _ Hnd Hin); simpl. by rewrite Hbad.
  - intros u Hin Hok Hinactive.
    unfold authenticate_user, bind, select_where; simpl.
    rewrite (select_by_email _ _ Hnd Hin); simpl.
    by rewrite Hok, Hinactive.
Qed.

(** ** One-time tokens past their lifetime *)


(** ** Tokens issued at different times *)

Lemma jws_sign_inj (c1 c2 : dict) (k1 k2 : string) :
  JoseLaws ->
  NoDup (fst <$> c1) -> NoDup (fst <$> c2) ->
  jws_sign c1 k1 JWT_ALGORITHM = jws_sign c2 k2 JWT_ALGORITHM -> c1 = c2.
Proof.
  intros Hlaws Hnd1 Hnd2 Heq.
  pose proof (jws_payload_sign c1 k1 Hnd1) as H1.
  rewrite Heq, (jws_payload_sign c2 k2 Hnd2) in H1. by injection H1.
Qed.

Lemma refresh_tokens_differ (u : User.t) (t t' : Z) :
  JoseLaws -> t <> t' ->
  create_refresh_token (token_data_of u) t
  <> create_refresh_token (token_data_of u) t'.
Proof.
  intros Hlaws Hne Heq. unfold create_refresh_token, jwt_encode in Heq.
  apply jws_sign_inj in Heq;
    [|done|apply stamped_NoDup, token_data_NoDup..].
  assert (Hexp := f_equal (dict_get "exp") Heq).
  rewrite !stamped_exp in Hexp. injection Hexp. lia.
Qed.

(** X14. Outside the second in which the presented token was issued, the
    rotation does what it is meant to: the refresh returns a different
    refresh token, the presented one is refused as revoked from then on,
    and the new one is accepted. *)
Theorem rotation_after_the_issuing_second (now later after : Z) (w : world)
    (u : User.t) (password : string) :
  JoseLaws -> UuidLaws ->
  NoDup (User.email <$> db w) ->
  NoDup (User.id <$> db w) ->
  u ∈ db w ->
  password_rejected u password = false ->
  User.is_active u = true ->
  now < later < now + 7 * 24 * 3600 ->
  later <= after < later + 7 * 24 * 3600 ->
  after <= now + REFRESH_TOKEN_EXPIRE_DAYS * 86400 ->
  exists u1 a rt w1 a2 rt2 w2 a3 rt3 w3,
    authenticate_user now
      {| login_email := User.email u; login_password := password |} w
    = (Return (u1, a, rt), w1) /\
    refresh_access_token later rt w1 = (Return (a2, rt2), w2) /\
    rt2 <> rt /\
    refresh_access_token after rt w2
    = (Raise (HTTPException 401 "Refresh token has been revoked"), w2) /\
    refresh_access_token after rt2 w2 = (Return (a3, rt3), w3).
Proof.
  intros Hjose Huuid Hemails Hids Hin Hpw Hact Hlater Hafter Hexp.
  set (u1 := set_last_login_at u now).
  do 7 eexists. exists (create_access_token (token_data_of u1) None after).
  exists (create_refresh_token (token_data_of u1) after). eexists.
  split; [by apply authenticate_user_ok|].
  assert (Hids1 : NoDup (User.id <$> update_row u1 (db w)))
    by by rewrite update_row_ids.
  assert (Hin1 : u1 ∈ update_row u1 (db w)) by by eapply update_row_in.
  assert (Hne : create_refresh_token (token_data_of u1) later
                <> create_refresh_token (token_data_of u1) now)
    by (apply refresh_tokens_differ; [done|lia]).
  set (w1 := write_redis
               (store_setex now
                  (refresh_key (uuid_str (User.id u))
                     (create_refresh_token (token_data_of u) now))
                  (7 * 24 * 3600) "1" (redis w))
               (write_db (update_row u1 (db w)) w)).
  assert (Hle : later <= now + REFRESH_TOKEN_EXPIRE_DAYS * 86400) by lia.
  assert (Hlive : store_exists later
                    (refresh_key (uuid_str (User.id u1))
                       (create_refresh_token (token_data_of u1) now))
                    (redis w1) = true).
  { simpl. apply store_exists_setex_live. lia. }
  pose proof (refresh_own_token now later w1 u1 Hjose Huuid Hle Hlive
                Hids1 Hin1 Hact) as Hrun.
  split; [exact Hrun|]. split; [exact Hne|]. split.
  - eapply (proj2 (rotated_token_is_rejected _ after _ _ _ _ _ Hrun Hne)).
    apply (decode_own_refresh u1 now after Hjose). lia.
  - apply (refresh_own_token later after _ u1); try done.
    + lia.
    + simpl. apply store_exists_setex_live. lia.
Qed.


(** ** Password change and reset, end to end *)

Lemma NoDup_fmap_elem_inj {A B} (f : A -> B) (l : list A) (x y : A) :
  NoDup (f <$> l) -> x ∈ l -> y ∈ l -> f x = f y -> x = y.
Proof.
  induction l as [|a l IH]; simpl; intros Hnd Hx Hy Hf.
  - by apply not_elem_of_nil in Hx.
  - apply list.NoDup_cons in Hnd as [Ha Hnd].
    apply elem_of_cons in Hx as [->|Hx]; apply elem_of_cons in Hy as [->|Hy];
      try done.
    + destruct Ha. rewrite Hf. by apply list_elem_of_fmap_2.
    + destruct Ha. rewrite <- Hf. by apply list_elem_of_fmap_2.
    + by apply IH.
Qed.

Lemma update_row_emails (u u' : User.t) (rows : list User.t) :
  NoDup (User.id <$> rows) ->
  u ∈ rows ->
  User.id u' = User.id u ->
  User.email u' = User.email u ->
  User.email <$> update_row u' rows = User.email <$> rows.
Proof.
  intros Hnd Hin Hid Hemail.
  assert (Hall : forall row, row ∈ rows -> same_id row u' = true ->
                             User.email u' = User.email row).
  { intros row Hrow Hsame. apply bool_decide_eq_true in Hsame.
    rewrite (NoDup_fmap_elem_inj User.id rows row u Hnd Hrow Hin); [done|].
    congruence. }
  clear Hnd Hin. unfold update_row.
  induction rows as [|row rows IH]; simpl; [done|]. f_equal.
  - destruct (same_id row u') eqn:E; [|done].
    apply Hall; [left|done].
  - apply IH. intros r Hr. apply Hall. by right.
Qed.

(** X16. [change_password] answers 404 for an id no row has and 400 when the
    current password is not accepted, which is always so for a user without
    a password hash, writing nothing in both cases; when it succeeds, the
    user logs in with the new password, given that the hasher verifies the
    hash it produced. *)
Theorem change_password_outcomes (now : Z) (w : world) (u : User.t)
    (current_password new_password salt : string) :
  NoDup (User.email <$> db w) ->
  NoDup (User.id <$> db w) ->
  u ∈ db w ->
  (forall user_id,
     user_id ∉ User.id <$> db w ->
     change_password user_id current_password new_password salt w
     = (Raise (HTTPException 404 "User not found"), w)) /\
  (password_rejected u current_password = true ->
   change_password (User.id u) current_password new_password salt w
   = (Raise (HTTPException 400 "Current password is incorrect"), w)) /\
  (User.password_hash u = None ->
   change_password (User.id u) current_password new_password salt w
   = (Raise (HTTPException 400 "Current password is incorrect"), w)) /\
  (password_rejected u current_password = false ->
   User.is_active u = true ->
   hash_password new_password salt <> "" ->
   verify_password new_password (hash_password new_password salt) = true ->
   exists u2 w2 u3 a rt w3,
     change_password (User.id u) current_password new_password salt w
     = (Return u2, w2) /\
     User.password_hash u2 = Some (hash_password new_password salt) /\
     authenticate_user now
       {| login_email := User.email u; login_password := new_password |} w2
     = (Return (u3, a, rt), w3)).
Proof.
  intros Hemails Hids Hin.
  assert (Hbad : password_rejected u current_password = true ->
                 change_password (User.id u) current_password new_password
                   salt w
                 = (Raise (HTTPException 400 "Current password is incorrect"),
                    w)).
  { intros Hrej. unfold change_password, bind, select_where; simpl.
    rewrite (select_by_id _ _ Hids Hin); simpl. by rewrite Hrej. }
  split; [|split; [exact Hbad|split]].
  - intros user_id Hnone. unfold change_password, bind, select_where; simpl.
    rewrite filter_none; [done|].
    intros x Hx. apply bool_decide_eq_false. intros <-.
    apply Hnone. by apply list_elem_of_fmap_2.
  - intros Hnone. apply Hbad. unfold password_rejected. by rewrite Hnone.
  - intros Hok Hact Hne Hverify.
    set (u2 := set_password_hash u (hash_password new_password salt)).
    do 6 eexists. split; [by apply change_password_ok|].
    split; [done|].
    apply (authenticate_user_ok now _ u2).
    + simpl. by rewrite (update_row_emails u u2).
    + simpl. by eapply update_row_in.
    + unfold password_rejected, u2. simpl.
      apply String.eqb_neq in Hne as ->. by rewrite Hverify.
    + done.
Qed.

(** X17. A password reset, end to end: after a login, a forgotten-password
    request and the reset within the hour, the refresh token of the earlier
    login is refused as revoked, the access token of that login still
    authenticates until it expires, and the user logs in with the new
    password. *)
Theorem password_reset_end_to_end (ta t0 t1 later : Z) (w : world)
    (u : User.t) (password token new_password salt : string) :
  JoseLaws -> UuidLaws ->
  NoDup (User.email <$> db w) ->
  NoDup (User.id <$> db w) ->
  u ∈ db w ->
  password_rejected u password = false ->
  User.is_active u = true ->
  t1 < t0 + 3600 ->
  t1 <= later ->
  later <= ta + REFRESH_TOKEN_EXPIRE_DAYS * 86400 ->
  hash_password new_password salt <> "" ->
  verify_password new_password (hash_password new_password salt) = true ->
  exists u1 a rt w1 w2 u3 w3,
    authenticate_user ta
      {| login_email := User.email u; login_password := password |} w
    = (Return (u1, a, rt), w1) /\
    create_password_reset_token t0 (User.email u) token w1
    = (Return token, w2) /\
    reset_password t1 token new_password salt w2 = (Return u3, w3) /\
    refresh_access_token later rt w3
    = (Raise (HTTPException 401 "Refresh token has been revoked"), w3) /\
    (later <= ta + ACCESS_TOKEN_EXPIRE_MINUTES * 60 ->
     get_current_user later a w3 = (Return u3, w3)) /\
    exists u4 a4 rt4 w4,
      authenticate_user later
        {| login_email := User.email u; login_password := new_password |} w3
      = (Return (u4, a4, rt4), w4).
Proof.
  intros Hjose Huuid Hemails Hids Hin Hpw Hact Ht1 Hlater Hexp Hne Hverify.
  set (u1 := set_last_login_at u ta).
  set (u3 := set_password_hash u1 (hash_password new_password salt)).
  assert (Hids1 : NoDup (User.id <$> update_row u1 (db w)))
    by by rewrite update_row_ids.
  assert (Hin1 : u1 ∈ update_row u1 (db w)) by by eapply update_row_in.
  assert (Hemails1 : NoDup (User.email <$> update_row u1 (db w)))
    by by rewrite (update_row_emails u u1).
  set (w1 := write_redis
               (store_setex ta
                  (refresh_key (uuid_str (User.id u))
                     (create_refresh_token (token_data_of u) ta))
                  (7 * 24 * 3600) "1" (redis w))
               (write_db (update_row u1 (db w)) w)).
  set (w2 := write_redis
               (store_setex t0 ("password_reset:" +:+ token) 3600
                  (uuid_str (User.id u1)) (redis w1)) w1).
  destruct (reset_password_ok t1 token new_password salt w2 u1)
    as (w3 & Hrun & Hdb & _ & Hall); try done.
  { simpl. by apply store_get_setex_eq. }
  assert (Hids3 : NoDup (User.id <$> db w3))
    by (rewrite Hdb; simpl; by rewrite update_row_ids).
  assert (Hin3 : u3 ∈ db w3)
    by (rewrite Hdb; simpl; by eapply update_row_in).
  exists u1, (create_access_token (token_data_of u) None ta),
    (create_refresh_token (token_data_of u) ta), w1, w2, u3, w3.
  split; [by apply authenticate_user_ok|].
  split.
  { unfold create_password_reset_token, bind, select_where; simpl.
    change (User.email u) with (User.email u1).
    by rewrite (select_by_email _ _ Hemails1 Hin1). }
  split; [exact Hrun|]. split; [|split].
  - eapply refresh_of_revoked_token.
    + by apply (decode_own_refresh u ta later Hjose).
    + done.
    + simpl. pose proof (uuid_str_nonempty (User.id u)) as Hnz.
      by apply String.eqb_neq in Hnz as ->.
    + apply (Hall _ later Hlater).
  - intros Haccess.
    change (token_data_of u) with (token_data_of u3).
    rewrite (get_current_user_own_token ta later w3 u3) by done.
    apply Z.ltb_ge in Haccess. rewrite Haccess.
    change (User.is_active u3) with (User.is_active u). by rewrite Hact.
  - do 4 eexists. apply (authenticate_user_ok later w3 u3).
    + rewrite Hdb. simpl. by rewrite (update_row_emails u1 u3).
    + exact Hin3.
    + unfold password_rejected, u3. simpl.
      apply String.eqb_neq in Hne as ->. by rewrite Hverify.
    + done.
Qed.

(** ** Logout through the endpoint *)

Lemma uuid_str_inj (i j : uuid) :
  UuidLaws -> uuid_str i = uuid_str j -> i = j.
Proof.
  intros Hlaws Heq. pose proof (UUID_str i) as Hi.
  rewrite Heq, UUID_str in Hi. by injection Hi.
Qed.

Lemma string_append_cancel_r (s1 s2 t : string) :
  s1 +:+ t = s2 +:+ t -> s1 = s2.
Proof.
  revert s2. induction s1 as [|c s1 IH]; intros [|c' s2] Heq; [done| | |].
  - apply (f_equal String.length) in Heq.
    change (String c' s2 +:+ t) with (String c' (s2 +:+ t)) in Heq.
    rewrite string_length_append in Heq. simpl in Heq.
    rewrite string_length_append in Heq. lia.
  - apply (f_equal String.length) in Heq.
    change (String c s1 +:+ t) with (String c (s1 +:+ t)) in Heq.
    rewrite string_length_append in Heq. simpl in Heq.
    rewrite string_length_append in Heq. lia.
  - change (String c (s1 +:+ t) = String c' (s2 +:+ t)) in Heq.
    injection Heq as -> Heq. f_equal. by apply IH.
Qed.

Lemma depends_current_active_user_own_token (t0 now : Z) (w : world)
    (u : User.t) :
  JoseLaws -> UuidLaws ->
  NoDup (User.id <$> db w) ->
  u ∈ db w ->
  User.is_active u = true ->
  depends_current_active_user now
    (create_access_token (token_data_of u) None t0) w
  = (if Z.ltb (t0 + ACCESS_TOKEN_EXPIRE_MINUTES * 60) now
     then Raise (HTTPException 401 "Could not validate credentials")
     else Return u, w).
Proof.
  intros Hjose Huuid Hids Hin Hact.
  unfold depends_current_active_user, bind.
  rewrite get_current_user_own_token by done. rewrite Hact.
  destruct (Z.ltb _ now); [done|].
  unfold get_current_active_user. by rewrite Hact.
Qed.

(** X18. Logout, end to end: with the access token of a login, the endpoint
    revokes the refresh token of that login, which a refresh then refuses,
    while the access token itself keeps authenticating until it expires;
    once the access token has expired the endpoint answers 401 and revokes
    nothing. *)
Theorem logout_end_to_end (now later : Z) (w : world) (u : User.t)
    (password : string) :
  JoseLaws -> UuidLaws ->
  NoDup (User.email <$> db w) ->
  NoDup (User.id <$> db w) ->
  u ∈ db w ->
  password_rejected u password = false ->
  User.is_active u = true ->
  later <= now + REFRESH_TOKEN_EXPIRE_DAYS * 86400 ->
  exists u1 a rt w1,
    authenticate_user now
      {| login_email := User.email u; login_password := password |} w
    = (Return (u1, a, rt), w1) /\
    (later <= now + ACCESS_TOKEN_EXPIRE_MINUTES * 60 ->
     exists w2,
       logout later a rt w1
       = (Return [("message", JStr "Logged out successfully")], w2) /\
       refresh_access_token later rt w2
       = (Raise (HTTPException 401 "Refresh token has been revoked"), w2) /\
       get_current_user later a w2 = (Return u1, w2)) /\
    (now + ACCESS_TOKEN_EXPIRE_MINUTES * 60 < later ->
     logout later a rt w1
     = (Raise (HTTPException 401 "Could not validate credentials"), w1)).
Proof.
  intros Hjose Huuid Hemails Hids Hin Hpw Hact Hexp.
  set (u1 := set_last_login_at u now).
  assert (Hids1 : NoDup (User.id <$> update_row u1 (db w)))
    by by rewrite update_row_ids.
  assert (Hin1 : u1 ∈ update_row u1 (db w)) by by eapply update_row_in.
  do 4 eexists. split; [by apply authenticate_user_ok|].
  split.
  - intros Haccess. apply Z.ltb_ge in Haccess. eexists. split; [|split].
    + unfold logout, bind.
      rewrite (depends_current_active_user_own_token now later _ u1)
        by done.
      rewrite Haccess. reflexivity.
    + eapply refresh_of_revoked_token.
      * by apply (decode_own_refresh u now later Hjose).
      * done.
      * simpl. pose proof (uuid_str_nonempty (User.id u)) as Hnz.
        by apply String.eqb_neq in Hnz as ->.
      * apply store_exists_delete_eq.
    + rewrite (get_current_user_own_token now later _ u1) by done.
      rewrite Haccess.
      change (User.is_active u1) with (User.is_active u). by rewrite Hact.
  - intros Hlate. apply Z.ltb_lt in Hlate. unfold logout, bind.
    rewrite (depends_current_active_user_own_token now later _ u1) by done.
    by rewrite Hlate.
Qed.

(** X19. The logout endpoint deletes only under the caller's own id: a
    caller who presents the refresh token of another user leaves that
    user's allow-record as it was. *)
Theorem logout_spares_other_users (ta later : Z) (w : world)
    (caller : User.t) (victim : uuid) (refresh_token : string) :
  JoseLaws -> UuidLaws ->
  NoDup (User.id <$> db w) ->
  caller ∈ db w ->
  User.is_active caller = true ->
  later <= ta + ACCESS_TOKEN_EXPIRE_MINUTES * 60 ->
  victim <> User.id caller ->
  exists w',
    logout later (create_access_token (token_data_of caller) None ta)
      refresh_token w
    = (Return [("message", JStr "Logged out successfully")], w') /\
    redis w' !! refresh_key (uuid_str victim) refresh_token
    = redis w !! refresh_key (uuid_str victim) refresh_token.
Proof.
  intros Hjose Huuid Hids Hin Hact Haccess Hne.
  apply Z.ltb_ge in Haccess. eexists. split.
  - unfold logout, bind.
    rewrite (depends_current_active_user_own_token ta later _ caller)
      by done.
    rewrite Haccess. reflexivity.
  - simpl. apply lookup_delete_ne. unfold refresh_key. intros Heq.
    apply (inj (String.append _)) in Heq.
    apply string_append_cancel_r in Heq.
    apply Hne. symmetry. by apply uuid_str_inj.
Qed.

(** ** What revoking all the tokens of a user leaves alone *)

Lemma glob_prefix_inv (lit : string) :
  glob_plain lit = true ->
  forall (n : nat) (s : string),
    glob_fuel n (lit +:+ "*") s = true -> exists rest, s = lit +:+ rest.
Proof.
  induction lit as [|c lit IH]; intros Hplain n s Hm; [by exists s|].
  simpl in Hplain. apply andb_true_iff in Hplain as [Hc Hplain].
  apply negb_true_iff in Hc. unfold is_glob_meta in Hc.
  repeat (apply orb_false_iff in Hc as [Hc ?]).
  destruct n as [|n]; [done|].
  change (String c lit +:+ "*") with (String c (lit +:+ "*")) in Hm.
  cbn [glob_fuel] in Hm.
  replace (Ascii.eqb c "*") with false in Hm by done.
  destruct s as [|c0 s]; [done|].
  replace (Ascii.eqb c "?") with false in Hm by done.
  replace (Ascii.eqb c "[") with false in Hm by done.
  replace (Ascii.eqb c "\") with false in Hm by done.
  apply andb_true_iff in Hm as [Hcc Hm]. apply Ascii.eqb_eq in Hcc as <-.
  destruct (IH Hplain n s Hm) as [rest ->]. by exists rest.
Qed.

Lemma colon_split (a b x y : string) :
  colon_free a = true -> colon_free b = true ->
  a +:+ ":" +:+ x = b +:+ ":" +:+ y -> a = b.
Proof.
  revert b. induction a as [|c a IH]; intros [|c' b] Ha Hb Heq; [done| | |].
  - change (String ":" x = String c' (b +:+ ":" +:+ y)) in Heq.
    injection Heq as <- _. by simpl in Hb.
  - change (String c (a +:+ ":" +:+ x) = String ":" y) in Heq.
    injection Heq as -> _. by simpl in Ha.
  - change (String c (a +:+ ":" +:+ x) = String c' (b +:+ ":" +:+ y)) in Heq.
    injection Heq as -> Heq. simpl in Ha, Hb.
    apply andb_true_iff in Ha as [_ Ha]. apply andb_true_iff in Hb as [_ Hb].
    f_equal. by apply IH.
Qed.

(** The keys the pattern of [_revoke_all_refresh_tokens] matches are the
    refresh-token keys of that user. *)
Lemma revoke_pattern_scope (user_id k : string) :
  glob_plain user_id = true ->
  glob_match ("refresh_token:" +:+ user_id +:+ ":*") k = true ->
  exists rest, k = "refresh_token:" +:+ user_id +:+ ":" +:+ rest.
Proof.
  intros Hplain. unfold glob_match.
  set (lit := "refresh_token:" +:+ user_id +:+ ":").
  replace ("refresh_token:" +:+ user_id +:+ ":*") with (lit +:+ "*")
    by (unfold lit; by rewrite !string_append_assoc).
  intros Hm. apply glob_prefix_inv in Hm as [rest ->].
  - exists rest. unfold lit. by rewrite !string_append_assoc.
  - unfold lit. by rewrite !glob_plain_append, Hplain.
Qed.

(** The loop deletes nothing but keys that match the pattern. *)
Lemma scan_and_delete_keeps (budget : nat) (now : Z) (pattern : string) :
  forall (cursor : nat) (w : world) r w',
    scan_and_delete budget now pattern cursor w = (r, w') ->
    db w' = db w /\
    forall k, glob_match pattern k = false -> redis w' !! k = redis w !! k.
Proof.
  induction budget as [|budget IH]; intros cursor w r w'.
  - by intros [= _ <-].
  - cbn [scan_and_delete]. unfold bind at 1. unfold redis_scan.
    destruct (store_scan now cursor pattern (redis w)) as [cursor' keys]
      eqn:Hs.
    assert (Hkeys : forall k, k ∈ keys -> glob_match pattern k = true).
    { intros k Hk. unfold store_scan in Hs. injection Hs as _ <-.
      apply list_elem_of_In, filter_In in Hk as [_ Hk].
      by apply andb_true_iff in Hk as [[_ Hk]%andb_true_iff _]. }
    set (w1 := match keys with
               | [] => w
               | _ => write_redis (store_delete keys (redis w)) w
               end).
    assert (Hw1 : db w1 = db w /\ redis w1 = store_delete keys (redis w)).
    { unfold w1. by destruct keys. }
    destruct Hw1 as [Hdb1 Hr1].
    assert (Hkeep : forall k, glob_match pattern k = false ->
                              redis w1 !! k = redis w !! k).
    { intros k Hk. rewrite Hr1. unfold store_delete.
      apply lookup_foldr_delete_not_elem_of. intros Hin.
      apply Hkeys in Hin. congruence. }
    assert (Hstep : bind (match keys with
                          | [] => ret tt
                          | _ => redis_delete keys
                          end)
                      (fun _ => if Nat.eqb cursor' 0 then ret tt
                                else scan_and_delete budget now pattern
                                       cursor') w
                    = (if Nat.eqb cursor' 0 then ret tt
                       else scan_and_delete budget now pattern cursor') w1).
    { unfold w1, bind. by destruct keys. }
    rewrite Hstep. clear Hstep.
    destruct (Nat.eqb cursor' 0).
    + intros [= _ <-]. by split.
    + intros Hrun. destruct (IH _ _ _ _ Hrun) as [Hdb Hrest].
      split; [congruence|]. intros k Hk. rewrite Hrest by done.
      by apply Hkeep.
Qed.

(** X20. A password reset logs out the user it resets and nobody else: the
    allow-records of every other user are as before, and so are the pending
    email verifications and the other pending password resets. *)
Theorem reset_password_spares_other_keys (now : Z)
    (token new_password salt : string) (w : world) (u : User.t) :
  UuidLaws ->
  (forall i, colon_free (uuid_str i) = true) ->
  NoDup (User.id <$> db w) ->
  u ∈ db w ->
  store_get now ("password_reset:" +:+ token) (redis w)
  = Some (uuid_str (User.id u)) ->
  exists u' w',
    reset_password now token new_password salt w = (Return u', w') /\
    (forall (other : uuid) (refresh_token : string),
       other <> User.id u ->
       redis w' !! refresh_key (uuid_str other) refresh_token
       = redis w !! refresh_key (uuid_str other) refresh_token) /\
    (forall x,
       redis w' !! ("email_verification:" +:+ x)
       = redis w !! ("email_verification:" +:+ x)) /\
    (forall x,
       x <> token ->
       redis w' !! ("password_reset:" +:+ x)
       = redis w !! ("password_reset:" +:+ x)).
Proof.
  intros Huuid Hcolon Hnd Hin Hget.
  pose proof (uuid_str_plain (User.id u)) as Hplain.
  set (pattern := "refresh_token:" +:+ uuid_str (User.id u) +:+ ":*").
  assert (Hother : forall (other : uuid) (refresh_token : string),
            other <> User.id u ->
            glob_match pattern (refresh_key (uuid_str other) refresh_token)
            = false).
  { intros other refresh_token Hne.
    destruct (glob_match pattern _) eqn:Hm; [|done].
    apply revoke_pattern_scope in Hm as [rest Heq]; [|done].
    unfold refresh_key in Heq. apply (inj (String.append _)) in Heq.
    apply colon_split in Heq; [|done..].
    destruct Hne. by apply uuid_str_inj. }
  assert (Hverif : forall x,
            glob_match pattern ("email_verification:" +:+ x) = false).
  { intros x. destruct (glob_match pattern _) eqn:Hm; [|done].
    apply revoke_pattern_scope in Hm as [rest Heq]; [|done].
    by injection Heq. }
  assert (Hreset : forall x,
            glob_match pattern ("password_reset:" +:+ x) = false).
  { intros x. destruct (glob_match pattern _) eqn:Hm; [|done].
    apply revoke_pattern_scope in Hm as [rest Heq]; [|done].
    by injection Heq. }
  destruct (reset_password_ok now token new_password salt w u)
    as (w' & Hrun & _ & _ & _); try done.
  exists (set_password_hash u (hash_password new_password salt)), w'.
  split; [exact Hrun|].
  revert Hrun. unfold reset_password, bind at 1, redis_get. rewrite Hget.
  pose proof (uuid_str_nonempty (User.id u)) as Hne.
  apply String.eqb_neq in Hne as ->.
  unfold bind at 1, UUID_or_raise. rewrite UUID_str.
  unfold ret at 1, bind at 1, select_where.
  rewrite (select_by_id _ _ Hnd Hin).
  unfold bind at 1, scalar_one_or_none, ret at 1.
  unfold bind at 1, commit. unfold bind at 1, redis_delete.
  unfold bind, _revoke_all_refresh_tokens.
  set (w1 := write_redis _ _).
  destruct (scan_and_delete _ _ _ _ w1) as [r w''] eqn:Hloop.
  apply scan_and_delete_keeps in Hloop as [_ Hkeep].
  assert (Hw1 : forall k, k <> "password_reset:" +:+ token ->
                          redis w1 !! k = redis w !! k).
  { intros k Hk. simpl. by rewrite lookup_delete_ne. }
  intros Hrun.
  assert (w'' = w') as -> by (destruct r; by injection Hrun).
  split; [|split].
  - intros other refresh_token Hneq.
    rewrite Hkeep by by apply Hother.
    apply Hw1. unfold refresh_key. by intros [=].
  - intros x. rewrite Hkeep by apply Hverif. apply Hw1. by intros [=].
  - intros x Hx. rewrite Hkeep by apply Hreset. apply Hw1.
    intros Heq. apply (inj (String.append _)) in Heq. done.
Qed.

(** ** The workspace context of a request *)

(** X21. The workspace of a request is the id that the [X-Workspace-ID]
    header parses to, in whatever spelling the [UUID] constructor accepts
    and whatever the query says; an absent, empty or malformed header is
    not an error but falls back to the query parameter, read in the same
    way, and only when neither gives an id does [require_workspace_context]
    answer 400. *)
Theorem workspace_header_takes_precedence (i : uuid)
    (header query : option string) :
  UuidLaws ->
  (forall s, s <> "" -> UUID s = Some i ->
     workspace_context_middleware (Some s) query = Some i) /\
  workspace_context_middleware (Some (uuid_str i)) query = Some i /\
  (UUID_or_None header = None ->
   (forall s, s <> "" -> UUID s = Some i ->
      workspace_context_middleware header (Some s) = Some i) /\
   workspace_context_middleware header (Some (uuid_str i)) = Some i /\
   workspace_context_middleware header query = UUID_or_None query) /\
  (forall bad, UUID bad = None ->
     workspace_context_middleware (Some bad) (Some (uuid_str i)) = Some i) /\
  workspace_context_middleware None None = None /\
  (require_workspace_context (workspace_context_middleware header query)
   = Return i
   <-> workspace_context_middleware header query = Some i) /\
  (workspace_context_middleware header query = None ->
   exists detail,
     require_workspace_context (workspace_context_middleware header query)
     = Raise (HTTPException 400 detail)).
Proof.
  intros Huuid.
  assert (Hs : forall s, s <> "" -> UUID s = Some i ->
                 UUID_or_None (Some s) = Some i).
  { intros s Hne Hparse. simpl. by apply String.eqb_neq in Hne as ->. }
  assert (Hi : UUID_or_None (Some (uuid_str i)) = Some i).
  { apply Hs; [apply uuid_str_nonempty|apply UUID_str]. }
  unfold workspace_context_middleware.
  split; [by intros s Hne Hparse; rewrite (Hs s Hne Hparse)|].
  split; [by rewrite Hi|]. split; [|split; [|split; [done|split]]].
  - intros ->. split; [|by rewrite Hi].
    intros s Hne Hparse. by rewrite (Hs s Hne Hparse).
  - intros bad Hbad.
    assert (UUID_or_None (Some bad) = None) as ->; [|by rewrite Hi].
    simpl. by destruct (String.eqb bad "").
  - unfold require_workspace_context.
    destruct (UUID_or_None header) as [j|];
      [|destruct (UUID_or_None query) as [j|]];
      split; try done; by intros [= ->].
  - unfold require_workspace_context. intros ->. eauto.
Qed.

End Properties.

(** * The instance satisfies the laws *)

Module DemoLaws.
Import Demo.

Lemma bits_nonempty (p : positive) : bits p <> "".
Proof. by destruct p. Qed.

Lemma unbits_bits (p : positive) : unbits (bits p) = Some p.
Proof.
  induction p as [q IH|q IH|]; simpl; [| |done].
  - destruct (bits q) eqn:E; [by destruct q|]. by rewrite IH.
  - destruct (bits q) eqn:E; [by destruct q|]. by rewrite IH.
Qed.

Lemma bits_plain (p : positive) : glob_plain (bits p) = true.
Proof. induction p as [q IH|q IH|]; simpl; by rewrite ?IH. Qed.

Lemma uuid_laws : UuidLaws.
Proof.
  split.
  - apply unbits_bits.
  - apply bits_nonempty.
  - apply bits_plain.
Qed.

Lemma sealed_sign (claims : dict) (key algorithm : string) :
  sealed (sign claims key algorithm) = Some (key, algorithm, claims).
Proof. unfold sealed, sign. by rewrite unbits_bits, decode_encode. Qed.

Lemma jose_laws (cfg : Settings) : @JoseLaws libraries cfg.
Proof.
  split.
  - intros claims key _. simpl. unfold payload_of. by rewrite sealed_sign.
  - intros claims key. simpl. unfold check. rewrite sealed_sign. simpl.
    by rewrite !String.eqb_refl.
Qed.

End DemoLaws.

(** * The statements on the instance *)

Module DemoRuns.
Import Demo.

Ltac demo_side :=
  first
    [ apply DemoLaws.jose_laws
    | apply DemoLaws.uuid_laws
    | apply list_elem_of_here
    | apply list_elem_of_further, list_elem_of_here
    | by apply (bool_decide_unpack _); vm_compute
    | by vm_compute
    | split; by vm_compute ].

(** The state after Alice's login at [t0]. *)
Lemma w1_eq :
  w1 = write_redis
         (store_setex t0 (refresh_key (uuid_str (User.id alice)) rt)
            (7 * 24 * 3600) "1" (redis w0))
         (write_db (update_row (set_last_login_at alice t0) (db w0)) w0).
Proof. unfold w1. by rewrite authenticate_user_ok by demo_side. Qed.

Lemma alice_refreshes_at_t1 :
  refresh_access_token t1 rt w1
  = (Return (at1, rt1),
     write_redis
       (store_setex t1 (refresh_key (uuid_str (User.id alice)) rt1)
          (7 * 24 * 3600) "1"
          (store_delete [refresh_key (uuid_str (User.id alice)) rt]
             (redis w1)))
       (write_redis
          (store_delete [refresh_key (uuid_str (User.id alice)) rt]
             (redis w1)) w1)).
Proof.
  apply (refresh_own_token t0 t1 w1 (set_last_login_at alice t0)).
  - demo_side.
  - demo_side.
  - by vm_compute.
  - rewrite w1_eq. cbn [redis write_redis].
    apply store_exists_setex_live. by vm_compute.
  - rewrite w1_eq. cbn [db write_redis write_db].
    rewrite update_row_ids. demo_side.
  - rewrite w1_eq. cbn [db write_redis write_db].
    by apply (update_row_in alice); [demo_side|].
  - done.
Qed.

Lemma alice_refreshes : refresh_access_token t1 rt w1 = (Return (at1, rt1), w2).
Proof. unfold w2. by rewrite alice_refreshes_at_t1. Qed.

(** C1, as stated, fails: the refresh of [rt] at [t1] goes through one
    intermediate keyspace, and that keyspace holds no allow-record for the
    presented token, so in no intermediate state are both tokens valid. *)
Lemma no_state_holds_both_tokens :
  refresh_access_token t1 rt w1 = (Return (at1, rt1), w2) /\
  ~ exists s,
      s ∈ intermediate_states w1 w2 /\
      store_exists t1 (refresh_key (uuid_str (User.id alice)) rt) s = true /\
      store_exists t1 (refresh_key (uuid_str (User.id alice)) rt1) s = true.
Proof.
  split; [apply alice_refreshes|].
  intros (s & Hin & Hold & _). revert Hin.
  unfold w2. rewrite alice_refreshes_at_t1. cbn [snd].
  rewrite intermediate_states_two_writes.
  intros ->%list_elem_of_singleton.
  by rewrite store_exists_delete_eq in Hold.
Qed.

Lemma refresh_revokes_before_registering_demo :
  exists user_id,
    store_exists t1 (refresh_key user_id rt) (redis w1) = true /\
    intermediate_states w1 w2
    = [store_delete [refresh_key user_id rt] (redis w1)] /\
    store_exists t1 (refresh_key user_id rt)
      (store_delete [refresh_key user_id rt] (redis w1)) = false /\
    store_exists t1 (refresh_key user_id rt1) (redis w2) = true.
Proof.
  destruct (refresh_revokes_before_registering t1 rt at1 rt1 w1 w2)
    as (user_id & Hlive & _ & _ & Hmid & Hgone & Hnew & _).
  - apply alice_refreshes.
  - exists user_id.
    split; [exact Hlive|]. split; [exact Hmid|]. split; [exact Hgone|].
    exact Hnew.
Defined.

Lemma change_password_keeps_refresh_tokens_demo :
  exists u1 a rt w1 u2 w2 a3 rt3 w3,
    authenticate_user t0
      {| login_email := User.email alice; login_password := "wonderland" |} w0
    = (Return (u1, a, rt), w1) /\
    change_password (User.id alice) "wonderland" "looking-glass" "pepper" w1
    = (Return u2, w2) /\
    redis w2 = redis w1 /\
    history w2 = history w1 /\
    refresh_access_token t1 rt w2 = (Return (a3, rt3), w3).
Proof.
  apply change_password_keeps_refresh_tokens; demo_side.
Defined.

Lemma rotation_in_the_issuing_second_keeps_the_token_demo :
  exists u1 a rt w1 w2 a3 rt3 w3,
    authenticate_user t0
      {| login_email := User.email alice; login_password := "wonderland" |} w0
    = (Return (u1, a, rt), w1) /\
    refresh_access_token t0 rt w1 = (Return (a, rt), w2) /\
    store_exists t1 (refresh_key (uuid_str (User.id alice)) rt) (redis w2)
    = true /\
    refresh_access_token t1 rt w2 = (Return (a3, rt3), w3).
Proof.
  apply rotation_in_the_issuing_second_keeps_the_token; demo_side.
Defined.

Lemma refresh_failure_is_atomic_demo :
  refresh_access_token t0 "not-a-token" w1
  = (Raise (HTTPException 401 "Invalid refresh token"), w1) /\
  snd (refresh_access_token t0 "not-a-token" w1) = w1.
Proof.
  destruct (refresh_failure_is_atomic t0 "not-a-token" w1)
    as (Hsame & Hinvalid & _).
  assert (Hrun : refresh_access_token t0 "not-a-token" w1
                 = (Raise (HTTPException 401 "Invalid refresh token"), w1)).
  { apply Hinvalid. vm_compute. reflexivity. }
  split; [exact Hrun|].
  apply (Hsame (HTTPException 401 "Invalid refresh token")).
  rewrite Hrun. reflexivity.
Defined.


Lemma access_token_round_trip_demo :
  (exists payload,
     decode_token (create_access_token (token_data_of alice) None t0)
       "access" t1 = Return (Some payload) /\
     dict_get "sub" payload = Some (JStr (uuid_str (User.id alice))) /\
     dict_get "email" payload = Some (JStr (User.email alice)) /\
     dict_get "role" payload
     = Some (JStr (UserRole_value (User.role alice))) /\
     dict_get "exp" payload
     = Some (JInt (t0 + ACCESS_TOKEN_EXPIRE_MINUTES * 60))) /\
  decode_token (create_access_token (token_data_of alice) None t0)
    "access" (t0 + 901) = Return None.
Proof.
  split.
  - apply (access_token_round_trip alice t0 t1 (DemoLaws.jose_laws _)).
    by vm_compute.
  - apply (access_token_round_trip alice t0 (t0 + 901) (DemoLaws.jose_laws _)).
    by vm_compute.
Defined.

Lemma one_time_tokens_are_single_use_demo :
  (exists w1 u1 w2,
     create_password_reset_token t0 (User.email alice) "r3s3t" w0
     = (Return "r3s3t", w1) /\
     redis w1 !! ("password_reset:" +:+ "r3s3t")
     = Some {| value := uuid_str (User.id alice); deadline := t0 + 3600 |} /\
     reset_password t1 "r3s3t" "looking-glass" "pepper" w1
     = (Return u1, w2) /\
     User.id u1 = User.id alice /\
     redis w2 !! ("password_reset:" +:+ "r3s3t") = None /\
     reset_password t2 "r3s3t" "jabberwock" "salt" w2
     = (Raise (HTTPException 400 "Invalid or expired reset token"), w2)) /\
  (exists w1 u1 w2,
     create_verification_token t0 (User.id alice) "r3s3t" w0
     = (Return "r3s3t", w1) /\
     redis w1 !! ("email_verification:" +:+ "r3s3t")
     = Some {| value := uuid_str (User.id alice); deadline := t0 + 86400 |} /\
     verify_email t1 "r3s3t" w1 = (Return u1, w2) /\
     User.id u1 = User.id alice /\
     redis w2 !! ("email_verification:" +:+ "r3s3t") = None /\
     verify_email t2 "r3s3t" w2
     = (Raise (HTTPException 400 "Invalid or expired verification token"),
        w2)).
Proof.
  destruct (one_time_tokens_are_single_use t0 t1 t2 w0 alice "r3s3t"
              "looking-glass" "pepper" "jabberwock" "salt")
    as [Hreset Hverify]; [demo_side..|].
  split; [apply Hreset|apply Hverify]; by vm_compute.
Defined.

Lemma refresh_record_lifetime_is_fixed_demo :
  exists u1 a rt w1 payload,
    authenticate_user (cfg := long_sessions) t0
      {| login_email := User.email alice; login_password := "wonderland" |} w0
    = (Return (u1, a, rt), w1) /\
    redis w1 !! refresh_key (uuid_str (User.id alice)) rt
    = Some {| value := "1"; deadline := t0 + 604800 |} /\
    jws_payload rt = Some payload /\
    dict_get "exp" payload = Some (JInt (t0 + 14 * 86400)) /\
    t0 + 604800 <> t0 + 14 * 86400.
Proof.
  destruct (refresh_record_lifetime_is_fixed (cfg := long_sessions) t0 w0
              alice "wonderland")
    as (u1 & a & rt & w1 & payload & Hrun & Hrec & Hpay & Hexp & Hne);
    [demo_side..|].
  exists u1, a, rt, w1, payload.
  split; [exact Hrun|]. split; [exact Hrec|]. split; [exact Hpay|].
  split; [exact Hexp|]. apply Hne. by vm_compute.
Defined.

Lemma forgot_password_uniform_demo :
  fst (forgot_password t0 "alice@example.com" "r3s3t" w0)
  = Return generic_reset_response /\
  fst (forgot_password t0 "alice@example.com" "r3s3t" w0)
  = fst (forgot_password t0 "alice@example.com" "0th3r" nobody) /\
  forgot_password t0 "alice@example.com" "0th3r" nobody
  = (Return generic_reset_response, nobody).
Proof.
  destruct (forgot_password_uniform t0 "alice@example.com") as [Hsame Hnone].
  destruct (Hsame w0 nobody "r3s3t" "0th3r") as [Hresp Heq];
    [demo_side|apply NoDup_nil_2|].
  split; [exact Hresp|]. split; [exact Heq|].
  apply Hnone. intros u Hu. by apply not_elem_of_nil in Hu.
Defined.

Lemma sso_only_user_cannot_log_in_demo :
  authenticate_user t0
    {| login_email := User.email bob; login_password := "guess" |} w0
  = (Raise (HTTPException 401 "Incorrect email or password"), w0) /\
  authenticate_user t0
    {| login_email := User.email alice; login_password := "guess" |} w0
  = (Raise (HTTPException 401 "Incorrect email or password"), w0).
Proof.
  destruct (sso_only_user_cannot_log_in t0 w0 bob "guess") as [Hsso Hwrong];
    [demo_side..|].
  split; [exact Hsso|].
  apply (Hwrong w0 alice "salt$wonderland" "guess"); demo_side.
Defined.

End DemoRuns.

(** * The further properties on the instance *)

Module DemoMore.
Import Demo.

Ltac side :=
  first
    [ apply DemoLaws.jose_laws
    | apply DemoLaws.uuid_laws
    | apply list_elem_of_here
    | apply list_elem_of_further, list_elem_of_here
    | apply list_elem_of_further, list_elem_of_further, list_elem_of_here
    | by apply (bool_decide_unpack _); vm_compute
    | by vm_compute
    | split; by vm_compute ].

Lemma bits_colon_free (p : positive) : colon_free (bits p) = true.
Proof. induction p as [q IH|q IH|]; simpl; by rewrite ?IH. Qed.

Lemma alice_is_authenticated :
  get_current_user t1 at0 w1 = (Return (set_last_login_at alice t0), w1).
Proof.
  unfold at0.
  change (token_data_of alice)
    with (token_data_of (set_last_login_at alice t0)).
  rewrite get_current_user_own_token.
  - by replace (Z.ltb (t0 + ACCESS_TOKEN_EXPIRE_MINUTES * 60) t1)
      with false by by vm_compute.
  - side.
  - side.
  - rewrite DemoRuns.w1_eq. cbn [db write_redis write_db].
    rewrite update_row_ids. side.
  - rewrite DemoRuns.w1_eq. cbn [db write_redis write_db].
    by apply (update_row_in alice); [side|].
Qed.

Lemma get_current_user_sound_demo :
  depends_current_active_user t1 at0 w1
  = (Return (set_last_login_at alice t0), w1).
Proof.
  apply (get_current_user_sound t1 at0 w1).
  by rewrite alice_is_authenticated.
Defined.

Lemma get_optional_user_agrees_demo :
  get_optional_user t1 (Some at0) w1
  = (Return (Some (set_last_login_at alice t0)), w1) /\
  get_optional_user t1 None w1 = (Return None, w1).
Proof.
  destruct (get_optional_user_agrees t1 at0 w1) as [Hsome Hnone].
  split; [|exact Hnone].
  rewrite Hsome. by rewrite alice_is_authenticated.
Defined.

Lemma login_then_authenticated_demo :
  exists u1 a rt w1,
    authenticate_user t0
      {| login_email := User.email alice; login_password := "wonderland" |} w0
    = (Return (u1, a, rt), w1) /\
    (t1 <= t0 + ACCESS_TOKEN_EXPIRE_MINUTES * 60 ->
     depends_current_active_user t1 a w1 = (Return u1, w1)) /\
    (t0 + ACCESS_TOKEN_EXPIRE_MINUTES * 60 < t1 ->
     get_current_user t1 a w1
     = (Raise (HTTPException 401 "Could not validate credentials"), w1)).
Proof. apply login_then_authenticated; side. Defined.

Lemma tokens_are_not_interchangeable_demo :
  get_current_user t1 rt w1
  = (Raise (HTTPException 401 "Could not validate credentials"), w1) /\
  get_optional_user t1 (Some rt) w1 = (Return None, w1) /\
  refresh_access_token t1 at0 w1
  = (Raise (HTTPException 401 "Invalid refresh token"), w1).
Proof.
  apply (tokens_are_not_interchangeable t1 t0 (token_data_of alice) None w1).
  - side.
  - apply token_data_NoDup.
  - done.
  - done.
Defined.

Lemma deactivated_user_is_locked_out_demo :
  get_current_user t1 (create_access_token (token_data_of carol) None t0)
    locked
  = (Raise (HTTPException 403 "User account is inactive"), locked) /\
  get_optional_user t1
    (Some (create_access_token (token_data_of carol) None t0)) locked
  = (Return None, locked) /\
  refresh_access_token t1 (create_refresh_token (token_data_of carol) t0)
    locked
  = (Raise (HTTPException 401 "User not found or inactive"), locked).
Proof.
  apply deactivated_user_is_locked_out; side.
Defined.

Lemma require_role_hierarchy_demo :
  require_role ADMIN bob w0 = (Return bob, w0) /\
  require_role SUPER_ADMIN bob w0
  = (Raise (HTTPException 403
              "Insufficient permissions. Required role: super_admin"), w0).
Proof.
  split.
  - by apply (require_role_hierarchy ADMIN bob w0).
  - destruct (require_role_hierarchy SUPER_ADMIN bob w0)
      as ([Hret|Hraise] & _ & _ & _ & Hsuper & _); [|exact Hraise].
    by apply Hsuper in Hret.
Defined.

Lemma admin_guards_demo :
  fst (require_admin t1 at0 w1)
  = Raise (HTTPException 403
             "Insufficient permissions. Required role: admin") /\
  snd (require_admin t1 at0 w1) = w1.
Proof.
  destruct (admin_guards t1 at0 w1) as (Hsnd & _ & Hadmin & _).
  split; [|exact Hsnd].
  unfold require_admin, depends_current_active_user, bind.
  by rewrite alice_is_authenticated.
Defined.

Lemma verification_opens_verified_endpoints_demo :
  depends_current_verified_user t1 at0 w0
  = (Raise (HTTPException 403 "Email not verified"), w0) /\
  exists w1 u1 w2,
    create_verification_token t0 (User.id alice) "v3r1fy" w0
    = (Return "v3r1fy", w1) /\
    verify_email t1 "v3r1fy" w1 = (Return u1, w2) /\
    User.email_verified_at u1 = Some t1 /\
    depends_current_verified_user t1 at0 w2 = (Return u1, w2).
Proof.
  apply (verification_opens_verified_endpoints t0 t0 t1 t1 w0 alice "v3r1fy");
    side.
Defined.

Lemma no_user_has_daves_email (u : User.t) :
  u ∈ db w0 -> User.email u <> register_email dave.
Proof.
  intros [->|[->|Hu]%elem_of_cons]%elem_of_cons; [by vm_compute..|].
  by apply not_elem_of_nil in Hu.
Qed.

Lemma register_user_keeps_emails_unique_demo :
  register_user
    {| register_email := "alice@example.com";
       register_password := "s3cret-pass";
       register_name := "Impostor" |} daves_id "salt" w0
  = (Raise (HTTPException 400 "Email already registered"), w0) /\
  exists user w',
    register_user dave daves_id "salt" w0 = (Return user, w') /\
    user = User.mk daves_id (register_email dave)
             (Some (hash_password (register_password dave) "salt"))
             (register_name dave) USER true None None /\
    db w' = (db w0 ++ [user])%list /\
    redis w' = redis w0 /\
    NoDup (User.email <$> db w') /\
    NoDup (User.id <$> db w').
Proof.
  split.
  - destruct (register_user_keeps_emails_unique
                {| register_email := "alice@example.com";
                   register_password := "s3cret-pass";
                   register_name := "Impostor" |} daves_id "salt" w0)
      as [Htaken _]; [side..|].
    apply Htaken. exists alice. split; [side|done].
  - destruct (register_user_keeps_emails_unique dave daves_id "salt" w0)
      as [_ Hfree]; [side..|].
    apply Hfree, no_user_has_daves_email.
Defined.

Lemma register_then_login_demo :
  exists user w1 u1 a rt w2,
    register_user dave daves_id "salt" w0 = (Return user, w1) /\
    authenticate_user t1
      {| login_email := register_email dave;
         login_password := register_password dave |} w1
    = (Return (u1, a, rt), w2) /\
    User.id u1 = daves_id /\
    store_exists t1 (refresh_key (uuid_str daves_id) rt) (redis w2)
    = true.
Proof.
  apply register_then_login;
    first [apply no_user_has_daves_email | side].
Defined.

Lemma logout_revokes_the_presented_token_demo :
  exists w',
    logout_user (uuid_str (User.id alice)) rt w1 = (Return tt, w') /\
    store_exists t1 (refresh_key (uuid_str (User.id alice)) rt) (redis w')
    = false.
Proof.
  destruct (logout_revokes_the_presented_token t1 (uuid_str (User.id alice))
              rt w1) as (w' & Hrun & _ & Hgone & _).
  exists w'. split; [exact Hrun|exact Hgone].
Defined.

Lemma login_failures_demo :
  authenticate_user t0
    {| login_email := register_email dave; login_password := "guess" |} w0
  = (Raise (HTTPException 401 "Incorrect email or password"), w0) /\
  authenticate_user t0
    {| login_email := User.email alice; login_password := "guess" |} w0
  = (Raise (HTTPException 401 "Incorrect email or password"), w0) /\
  authenticate_user t0
    {| login_email := User.email carol; login_password := "rabbit-hole" |}
    locked
  = (Raise (HTTPException 403 "User account is inactive"), locked).
Proof.
  destruct (login_failures t0 w0 "guess") as (_ & Hunknown & Hwrong & _);
    [side|].
  destruct (login_failures t0 locked "rabbit-hole") as (_ & _ & _ & Hinactive);
    [side|].
  split; [|split].
  - apply Hunknown, no_user_has_daves_email.
  - apply Hwrong; side.
  - apply Hinactive; side.
Defined.


Lemma rotation_after_the_issuing_second_demo :
  exists u1 a rt w1 a2 rt2 w2 a3 rt3 w3,
    authenticate_user t0
      {| login_email := User.email alice; login_password := "wonderland" |} w0
    = (Return (u1, a, rt), w1) /\
    refresh_access_token t1 rt w1 = (Return (a2, rt2), w2) /\
    rt2 <> rt /\
    refresh_access_token t2 rt w2
    = (Raise (HTTPException 401 "Refresh token has been revoked"), w2) /\
    refresh_access_token t2 rt2 w2 = (Return (a3, rt3), w3).
Proof. apply rotation_after_the_issuing_second; side. Defined.


Lemma change_password_outcomes_demo :
  change_password (User.id alice) "guess" "looking-glass" "pepper" w0
  = (Raise (HTTPException 400 "Current password is incorrect"), w0) /\
  change_password (User.id bob) "guess" "looking-glass" "pepper" w0
  = (Raise (HTTPException 400 "Current password is incorrect"), w0) /\
  change_password daves_id "guess" "looking-glass" "pepper" w0
  = (Raise (HTTPException 404 "User not found"), w0) /\
  exists u2 w2 u3 a rt w3,
    change_password (User.id alice) "wonderland" "looking-glass" "pepper" w0
    = (Return u2, w2) /\
    User.password_hash u2 = Some (hash_password "looking-glass" "pepper") /\
    authenticate_user t1
      {| login_email := User.email alice;
         login_password := "looking-glass" |} w2
    = (Return (u3, a, rt), w3).
Proof.
  destruct (change_password_outcomes t1 w0 alice "guess" "looking-glass"
              "pepper") as (Hmissing & Hwrong & _); [side..|].
  destruct (change_password_outcomes t1 w0 bob "guess" "looking-glass"
              "pepper") as (_ & _ & Hsso & _); [side..|].
  destruct (change_password_outcomes t1 w0 alice "wonderland" "looking-glass"
              "pepper") as (_ & _ & _ & Hok); [side..|].
  split; [apply Hwrong; side|].
  split; [apply Hsso; side|].
  split; [apply Hmissing; side|].
  apply Hok; side.
Defined.

Lemma password_reset_end_to_end_demo :
  exists u1 a rt w1 w2 u3 w3,
    authenticate_user t0
      {| login_email := User.email alice; login_password := "wonderland" |} w0
    = (Return (u1, a, rt), w1) /\
    create_password_reset_token t0 (User.email alice) "r3s3t" w1
    = (Return "r3s3t", w2) /\
    reset_password t1 "r3s3t" "looking-glass" "pepper" w2 = (Return u3, w3) /\
    refresh_access_token t2 rt w3
    = (Raise (HTTPException 401 "Refresh token has been revoked"), w3) /\
    (t2 <= t0 + ACCESS_TOKEN_EXPIRE_MINUTES * 60 ->
     get_current_user t2 a w3 = (Return u3, w3)) /\
    exists u4 a4 rt4 w4,
      authenticate_user t2
        {| login_email := User.email alice;
           login_password := "looking-glass" |} w3
      = (Return (u4, a4, rt4), w4).
Proof. apply password_reset_end_to_end; side. Defined.

Lemma logout_end_to_end_demo :
  exists u1 a rt w1,
    authenticate_user t0
      {| login_email := User.email alice; login_password := "wonderland" |} w0
    = (Return (u1, a, rt), w1) /\
    (t1 <= t0 + ACCESS_TOKEN_EXPIRE_MINUTES * 60 ->
     exists w2,
       logout t1 a rt w1
       = (Return [("message", JStr "Logged out successfully")], w2) /\
       refresh_access_token t1 rt w2
       = (Raise (HTTPException 401 "Refresh token has been revoked"), w2) /\
       get_current_user t1 a w2 = (Return u1, w2)) /\
    (t0 + ACCESS_TOKEN_EXPIRE_MINUTES * 60 < t1 ->
     logout t1 a rt w1
     = (Raise (HTTPException 401 "Could not validate credentials"), w1)).
Proof. apply logout_end_to_end; side. Defined.

Lemma logout_spares_other_users_demo :
  exists w',
    logout t1 at0 rt w0
    = (Return [("message", JStr "Logged out successfully")], w') /\
    redis w' !! refresh_key (uuid_str (User.id bob)) rt
    = redis w0 !! refresh_key (uuid_str (User.id bob)) rt.
Proof.
  apply (logout_spares_other_users t0 t1 w0 alice (User.id bob) rt); side.
Defined.

Lemma reset_password_spares_other_keys_demo :
  exists u' w',
    reset_password t1 "r3s3t" "looking-glass" "pepper" pending
    = (Return u', w') /\
    (forall (other : uuid) (refresh_token : string),
       other <> User.id alice ->
       redis w' !! refresh_key (uuid_str other) refresh_token
       = redis pending !! refresh_key (uuid_str other) refresh_token) /\
    (forall x,
       redis w' !! ("email_verification:" +:+ x)
       = redis pending !! ("email_verification:" +:+ x)) /\
    (forall x,
       x <> "r3s3t" ->
       redis w' !! ("password_reset:" +:+ x)
       = redis pending !! ("password_reset:" +:+ x)).
Proof.
  apply reset_password_spares_other_keys;
    first [exact bits_colon_free | side].
Defined.

Lemma workspace_header_takes_precedence_demo :
  workspace_context_middleware (Some "101")
    (Some (uuid_str (User.id bob))) = Some (User.id alice) /\
  workspace_context_middleware (Some "junk") (Some (uuid_str (User.id alice)))
  = Some (User.id alice) /\
  workspace_context_middleware None None = None.
Proof.
  destruct (workspace_header_takes_precedence (User.id alice) None
              (Some (uuid_str (User.id bob))))
    as (Hheader & _ & _ & Hbad & Hnone & _); [side|].
  split; [apply Hheader; by vm_compute|]. split; [|exact Hnone].
  apply Hbad. by vm_compute.
Defined.

End DemoMore.
